(** * Restaurant menu service (restaurant-management/restaurant.py)

    A shallow embedding of the five Flask handlers of [restaurant.py]
    ([add_menu], [get_menu], [update_menu], [delete_menu_item],
    [get_all_menus]) together with the part of the document store they
    drive through pymongo ([find_one], [find], [insert_one] and
    [update_one] with [$push], positional [$set] and [$pull]).

    The store is a list of menu documents in natural order.  The global
    name [menus] is bound only when the start-up connection succeeded
    (lines 17-27 of the source), so the state the handlers run against is
    an optional collection.

    What is modelled of the libraries: the exceptions [ObjectId] and the
    BSON encoder raise on the values a request can carry, and the effect
    of the store calls on the collection.  What is not: a store that
    fails for reasons of its own (the network, the 16 MB limit on a
    document), for which the handlers answer 500 as for any other
    exception; a body that is an object whose [product_name] is neither
    a string nor [null]; and routing, which has taken place when a
    handler runs. *)

From Stdlib Require Import ZArith NArith Ascii String List Bool Lia SpecFloat.
From stdpp Require Import base decidable option list strings.

Local Open Scope string_scope.
Local Open Scope list_scope.
Local Open Scope Z_scope.

Set Warnings "-register-all".

(** ** JSON values *)

(** What [request.get_json()] yields for the members of a request body and
    what the store hands back for the fields of an item.  A number written
    as an integer literal is a Python [int], any other number a [float]
    (an IEEE 754 double, here by its sign, mantissa and exponent in
    canonical form). *)
Inductive json : Type :=
| JNull
| JBool (b : bool)
| JInt (z : Z)
| JFloat (f : spec_float)
| JStr (s : string)
| JArr (elts : list json)
| JObj (members : list (string * json)).

Definition spec_float_eq_dec : forall a b : spec_float, {a = b} + {a <> b}.
Proof.
  decide equality; first [apply Bool.bool_dec | apply Z.eq_dec | apply Pos.eq_dec].
Defined.

Definition json_eq_dec : forall a b : json, {a = b} + {a <> b}.
Proof.
  fix IH 1. intros a b. decide equality.
  - apply Bool.bool_dec.
  - apply Z.eq_dec.
  - apply spec_float_eq_dec.
  - apply String.string_dec.
  - apply (List.list_eq_dec IH).
  - apply List.list_eq_dec. intros p q. decide equality.
    apply String.string_dec.
Defined.

#[global] Instance json_eq_decision : EqDecision json := json_eq_dec.

(** Python's truth value of a parsed JSON value: [None], [False], [0],
    [0.0] and [-0.0], the empty string, the empty list and the empty dict
    are false. *)
Definition truthy (v : json) : bool :=
  match v with
  | JNull => false
  | JBool b => b
  | JInt z => negb (z =? 0)
  | JFloat (S754_zero _) => false
  | JFloat _ => true
  | JStr s => negb (String.eqb s "")
  | JArr elts => negb (Nat.eqb (length elts) 0)
  | JObj members => negb (Nat.eqb (length members) 0)
  end.

(** Member lookup in a JSON object. *)
Fixpoint member (k : string) (members : list (string * json)) : option json :=
  match members with
  | [] => None
  | (k', v) :: rest => if String.eqb k k' then Some v else member k rest
  end.

Definition field (k : string) (v : json) : option json :=
  match v with
  | JObj members => member k members
  | _ => None
  end.

(** ** Object identifiers *)

(** [bson.ObjectId]: twelve bytes, here the number they spell. *)
Definition oid := N.

Definition hex_digit (c : ascii) : option N :=
  let n := N_of_ascii c in
  if (48 <=? n)%N && (n <=? 57)%N then Some (n - 48)%N
  else if (97 <=? n)%N && (n <=? 102)%N then Some (n - 87)%N
  else if (65 <=? n)%N && (n <=? 70)%N then Some (n - 55)%N
  else None.

Definition is_Some_bool {A} (o : option A) : bool :=
  match o with
  | Some _ => true
  | None => false
  end.

Fixpoint from_hex (acc : N) (s : string) : option N :=
  match s with
  | EmptyString => Some acc
  | String c rest =>
      match hex_digit c with
      | Some d => from_hex (16 * acc + d)%N rest
      | None => None
      end
  end.

Definition hex_char (d : N) : ascii :=
  if (d <? 10)%N then ascii_of_N (48 + d) else ascii_of_N (87 + d).

Fixpoint to_hex (digits : nat) (v : N) (acc : string) : string :=
  match digits with
  | O => acc
  | S n => to_hex n (v / 16)%N (String (hex_char (v mod 16)%N) acc)
  end.

(** [str(oid)]: the 24 lower-case hexadecimal digits. *)
Definition str_oid (o : oid) : string := to_hex 24 o "".

(** ** Exceptions caught by the handlers' [except Exception] *)

(** The exceptions the modelled calls raise: an unbound global name,
    [bson.errors.InvalidId] from [ObjectId], the two the BSON encoder
    raises on a value parsed from JSON, and the one raised by [data.get]
    on a body that is no dict. *)
Inductive exn : Type :=
| NameError (name : string)
| InvalidId (given : string)
| OverflowError
| InvalidDocument
| AttributeError (type_name attribute : string).

Definition contains (c : ascii) (s : string) : bool :=
  existsb (Ascii.eqb c) (list_ascii_of_string s).

(** One character of [repr(s)] between the quotes [q]. *)
Definition repr_char (q : ascii) (c : ascii) : string :=
  let n := N_of_ascii c in
  if Ascii.eqb c q || Ascii.eqb c "\"%char then String "\"%char (String c "")
  else if (n =? 9)%N then "\t"
  else if (n =? 10)%N then "\n"
  else if (n =? 13)%N then "\r"
  else if (n <? 32)%N || (n =? 127)%N
       then String "\"%char (String "x"%char
              (String (hex_char (n / 16)) (String (hex_char (n mod 16)) "")))
  else String c "".

(** Python's [repr] of a [str]: apostrophes around it, or double quotes
    when it holds an apostrophe and no double quote; the quote, the
    backslash and the control characters are escaped.  Characters outside
    ASCII are copied, as [repr] does for the printable ones. *)
Definition py_repr (s : string) : string :=
  let q := if contains "'"%char s && negb (contains (ascii_of_N 34) s)
           then ascii_of_N 34 else "'"%char in
  String q (String.append
    (String.concat "" (List.map (repr_char q) (list_ascii_of_string s)))
    (String q "")).

Definition str_exn (e : exn) : string :=
  match e with
  | NameError name =>
      String.append "name '" (String.append name "' is not defined")
  | InvalidId given =>
      String.append (py_repr given)
        " is not a valid ObjectId, it must be a 12-byte input or a 24-character hex string"
  | OverflowError => "MongoDB can only handle up to 8-byte ints"
  | InvalidDocument => "Key names must not contain the NULL byte"
  | AttributeError type_name attribute =>
      String.append "'" (String.append type_name
        (String.append "' object has no attribute '"
           (String.append attribute "'")))
  end.

Definition result (A : Type) : Type := exn + A.

Definition bind {A B : Type} (m : result A) (k : A -> result B) : result B :=
  match m with
  | inl e => inl e
  | inr a => k a
  end.

Notation "x <- m ;; k" := (bind m (fun x => k))
  (at level 100, m at next level, right associativity).

(** [ObjectId(s)] for a [str]: accepted when [s] is 24 hexadecimal digits,
    [InvalidId] otherwise.  ([bytes.fromhex] skips white space between two
    digit pairs, so bson also lets through a string of 24 characters with
    white space in it and builds an identifier of fewer than twelve bytes;
    what the encoders make of such an identifier is not defined by their
    source, and it counts here as refused.) *)
Definition ObjectId (s : string) : result oid :=
  if Nat.eqb (String.length s) 24 then
    match from_hex 0 s with
    | Some o => inr o
    | None => inl (InvalidId s)
    end
  else inl (InvalidId s).

(** ** Documents of the [menu] collection *)

Record menu_item : Type := {
  product_name : string;
  price : json;
  detail : json
}.

Record menu : Type := {
  _id : oid;
  restaurant_id : oid;
  menu_items : list menu_item
}.

#[global] Instance menu_item_eq_decision : EqDecision menu_item.
Proof. solve_decision. Defined.

#[global] Instance menu_eq_decision : EqDecision menu.
Proof. solve_decision. Defined.

Abbreviation collection := (list menu) (only parsing).

(** The global [menus]: [None] when the start-up connection failed and the
    name was never bound. *)
Abbreviation database := (option (list menu)) (only parsing).

(** ** The part of pymongo the handlers use *)

(** The two filter documents of the source: [{"restaurant_id": o}] and
    [{"restaurant_id": o, "menu_items.product_name": n}]; [find({})] has
    neither condition. *)
Record query : Type := {
  q_restaurant_id : option oid;
  q_item_name : option string
}.

Definition by_restaurant (o : oid) : query :=
  {| q_restaurant_id := Some o; q_item_name := None |}.

Definition by_restaurant_and_item (o : oid) (n : string) : query :=
  {| q_restaurant_id := Some o; q_item_name := Some n |}.

Definition everything : query :=
  {| q_restaurant_id := None; q_item_name := None |}.

Definition has_name (n : string) (it : menu_item) : Prop := product_name it = n.

#[global] Instance has_name_dec n it : Decision (has_name n it).
Proof. unfold has_name. apply _. Defined.

Definition matches (q : query) (d : menu) : Prop :=
  match q_restaurant_id q with
  | Some o => restaurant_id d = o
  | None => True
  end /\
  match q_item_name q with
  | Some n => Exists (has_name n) (menu_items d)
  | None => True
  end.

#[global] Instance matches_dec q d : Decision (matches q d).
Proof.
  unfold matches.
  destruct (q_restaurant_id q), (q_item_name q); apply _.
Defined.

(** The [update_data] dict of [update_menu]: at most the two keys
    ["menu_items.$.price"] and ["menu_items.$.detail"]. *)
Record set_fields : Type := {
  set_price : option json;
  set_detail : option json
}.

Inductive update : Type :=
| Push (it : menu_item)            (* {"$push": {"menu_items": it}} *)
| SetPositional (u : set_fields)   (* {"$set": update_data} *)
| Pull (n : string).               (* {"$pull": {"menu_items": {"product_name": n}}} *)

Record UpdateResult : Type := {
  matched_count : Z;
  modified_count : Z
}.

Definition with_items (d : menu) (items : list menu_item) : menu :=
  {| _id := _id d; restaurant_id := restaurant_id d; menu_items := items |}.

Definition apply_set (u : set_fields) (it : menu_item) : menu_item :=
  {| product_name := product_name it;
     price := default (price it) (set_price u);
     detail := default (detail it) (set_detail u) |}.

(** What an update document does to the matched document.  The positional
    [$] stands for the first array element that satisfies the filter's
    condition on [menu_items], a condition [update_menu] always gives; an
    empty [$set] changes nothing (MongoDB 5.0 and later).  [$pull] drops
    every element of the name. *)
Definition apply_update (q : query) (u : update) (d : menu) : menu :=
  match u with
  | Push it => with_items d (menu_items d ++ [it])
  | SetPositional f =>
      match q_item_name q with
      | Some n =>
          match list_find (has_name n) (menu_items d) with
          | Some (j, it) => with_items d (<[j := apply_set f it]> (menu_items d))
          | None => d
          end
      | None => d
      end
  | Pull n => with_items d (filter (fun it => ~ has_name n it) (menu_items d))
  end.

(** *** What the BSON encoder refuses *)

(** The driver encodes every document it sends before it sends anything.
    Of what JSON can carry it refuses an [int] outside eight bytes
    ([OverflowError]) and a key holding the NUL character
    ([InvalidDocument]); members are encoded in order, a key before its
    value. *)
Definition fits_int64 (z : Z) : bool :=
  (- 2 ^ 63 <=? z) && (z <? 2 ^ 63).

Definition has_nul (k : string) : bool := contains (ascii_of_N 0) k.

Fixpoint bson_error (v : json) : option exn :=
  match v with
  | JInt z => if fits_int64 z then None else Some OverflowError
  | JArr elts =>
      (fix first_error (l : list json) : option exn :=
         match l with
         | [] => None
         | x :: rest =>
             match bson_error x with
             | Some e => Some e
             | None => first_error rest
             end
         end) elts
  | JObj members =>
      (fix first_error (l : list (string * json)) : option exn :=
         match l with
         | [] => None
         | (k, x) :: rest =>
             if has_nul k then Some InvalidDocument
             else match bson_error x with
                  | Some e => Some e
                  | None => first_error rest
                  end
         end) members
  | _ => None
  end.

(** First one, then the other. *)
Definition or_else (a b : option exn) : option exn :=
  match a with
  | Some e => Some e
  | None => b
  end.

(** The item dict has the keys [product_name], [price], [detail], in this
    order; a name is a string and always encodes. *)
Definition item_error (it : menu_item) : option exn :=
  or_else (bson_error (price it)) (bson_error (detail it)).

Fixpoint items_error (items : list menu_item) : option exn :=
  match items with
  | [] => None
  | it :: rest => or_else (item_error it) (items_error rest)
  end.

Definition update_error (u : update) : option exn :=
  match u with
  | Push it => item_error it
  | SetPositional f =>
      or_else (from_option bson_error None (set_price f))
              (from_option bson_error None (set_detail f))
  | Pull n => None
  end.

(** [collection.find_one(filter)]: the first matching document. *)
Definition find_one (q : query) (c : collection) : option menu :=
  snd <$> list_find (matches q) c.

(** [collection.find(filter)], read to the end. *)
Definition find (q : query) (c : collection) : list menu :=
  filter (matches q) c.

(** [collection.insert_one(doc)]; [fresh] is the [_id] the driver
    generates for the new document.  Nothing is stored when the document
    does not encode. *)
Definition insert_one (fresh : oid) (rid : oid) (items : list menu_item)
    (c : collection) : result collection :=
  match items_error items with
  | Some e => inl e
  | None => inr (c ++ [{| _id := fresh; restaurant_id := rid; menu_items := items |}])
  end.

(** [collection.update_one(filter, update)]: when the update document
    encodes, the first matching document is rewritten in place and
    [modified_count] tells whether it changed. *)
Definition update_one (q : query) (u : update) (c : collection)
    : result (UpdateResult * collection) :=
  match update_error u with
  | Some e => inl e
  | None =>
      inr match list_find (matches q) c with
          | Some (i, d) =>
              let d' := apply_update q u d in
              ({| matched_count := 1;
                  modified_count := if decide (d' = d) then 0 else 1 |},
               <[i := d']> c)
          | None => ({| matched_count := 0; modified_count := 0 |}, c)
          end
  end.

Arguments insert_one : simpl never.
Arguments update_one : simpl never.

(** ** Requests and responses *)

(** The JSON object of a request body, as far as the handlers read it.
    [None] is an absent member.  [product_name] is the key items are
    matched by and the data model types it as a string, so here it is a
    string or nothing ([null] counts as absent: [data.get] is [None] for
    both); [price] and [detail] are stored as they come and may be any
    JSON value.  Two kinds of body are outside this type: one that is no
    object ([null], a list, a number, ...), for which see [non_object]
    and [full_dispatch_request] below, and an object whose [product_name]
    is neither a string nor [null], which is not modelled.  What is proved
    of every [request] is proved of the bodies of this type. *)
Record request_json : Type := {
  data_product_name : option string;
  data_price : option json;
  data_detail : option json
}.

(** [data.get(key)]: [None] (here [JNull]) for an absent member. *)
Definition get_product_name (data : request_json) : json :=
  from_option JStr JNull (data_product_name data).
Definition get_price (data : request_json) : json :=
  default JNull (data_price data).
Definition get_detail (data : request_json) : json :=
  default JNull (data_detail data).

(** [data['product_name']], read after the guard on it. *)
Definition the_product_name (data : request_json) : string :=
  default "" (data_product_name data).

(** A response: the body given to [jsonify] and the status code. *)
Definition response : Type := json * Z.

Definition jsonify (members : list (string * json)) : json := JObj members.

Definition item_json (it : menu_item) : json :=
  JObj [("product_name", JStr (product_name it));
        ("price", price it);
        ("detail", detail it)].

(** Reading the global [menus]. *)
Definition the_menus (db : database) : result collection :=
  match db with
  | Some c => inr c
  | None => inl (NameError "menus")
  end.

(** The [try ... except Exception as e] frame of a handler: what was
    written before the exception stays written; here every exception
    precedes the first write. *)
Definition try_except (msg : string) (db : database)
    (attempt : result (response * collection)) : response * database :=
  match attempt with
  | inr (r, c) => (r, Some c)
  | inl e => ((jsonify [("msg", JStr msg); ("error", JStr (str_exn e))], 500), db)
  end.

(** ** The handlers *)

Module Msg.
Definition missing_fields := "Missing required fields (product_name, price, detail)".
Definition appended := "Menu item added successfully to existing menu".
Definition created := "New menu created and item added successfully".
Definition add_error := "Error adding menu item".
Definition retrieved := "Menu retrieved successfully".
Definition no_menu := "No menu found for the given restaurant_id".
Definition get_error := "Error retrieving menu".
Definition menu_not_found := "Restaurant menu not found".
Definition name_required := "Product name is required".
Definition updated := "Menu item updated successfully".
Definition no_product_change := "No changes made to the product".
Definition product_not_found := "Product not found in the menu".
Definition update_error := "Error updating menu".
Definition deleted := "Menu item deleted successfully".
Definition no_menu_change := "No changes made to the menu".
Definition delete_error := "Error deleting menu item".
Definition no_menus := "No menus found".
Definition all_retrieved := "Menus retrieved successfully".
Definition list_error := "Error fetching menus".
End Msg.

Definition only_msg (m : string) (status : Z) : response :=
  (jsonify [("msg", JStr m)], status).

(** The guard of [add_menu] (line 36). *)
Definition missing_required (data : request_json) : bool :=
  negb (truthy (get_product_name data))
  || negb (truthy (get_price data))
  || negb (truthy (get_detail data)).

Definition new_menu_item (data : request_json) : menu_item :=
  {| product_name := the_product_name data;
     price := get_price data;
     detail := get_detail data |}.

(** POST /menu/<restaurant_id>.  A document read from the store is a
    non-empty dict, so [if existing_menu] asks whether there is one. *)
Definition add_menu (fresh : oid) (restaurant_id : string) (data : request_json)
    (db : database) : response * database :=
  if missing_required data
  then (only_msg Msg.missing_fields 400, db)
  else
    try_except Msg.add_error db
      (menus <- the_menus db ;;
       rid <- ObjectId restaurant_id ;;
       match find_one (by_restaurant rid) menus with
       | Some existing_menu =>
           written <- update_one (by_restaurant rid)
                        (Push (new_menu_item data)) menus ;;
           inr (only_msg Msg.appended 200, snd written)
       | None =>
           menus' <- insert_one fresh rid [new_menu_item data] menus ;;
           inr (only_msg Msg.created 201, menus')
       end).

(** GET /menu/<restaurant_id>.  The handler also overwrites [_id] in its
    own copy of the document, which the response does not show. *)
Definition get_menu (restaurant_id : string) (db : database) : response :=
  fst (try_except Msg.get_error db
    (menus <- the_menus db ;;
     rid <- ObjectId restaurant_id ;;
     match find_one (by_restaurant rid) menus with
     | Some restaurant_menu =>
         inr ((jsonify [("msg", JStr Msg.retrieved);
                        ("menu", JArr (map item_json (menu_items restaurant_menu)))],
               200), menus)
     | None => inr (only_msg Msg.no_menu 404, menus)
     end)).

(** [next((item for item in items if item['product_name'] == n), None)] *)
Definition next_named (n : string) (items : list menu_item) : option menu_item :=
  snd <$> list_find (has_name n) items.

(** PUT /menu/<restaurant_id> *)
Definition update_menu (restaurant_id : string) (data : request_json)
    (db : database) : response * database :=
  try_except Msg.update_error db
    (menus <- the_menus db ;;
     rid <- ObjectId restaurant_id ;;
     match find_one (by_restaurant rid) menus with
     | None => inr (only_msg Msg.menu_not_found 404, menus)
     | Some restaurant_menu =>
         if negb (truthy (get_product_name data))
         then inr (only_msg Msg.name_required 400, menus)
         else
           match next_named (the_product_name data) (menu_items restaurant_menu) with
           | Some existing_product =>
               let update_data :=
                 {| set_price := data_price data;
                    set_detail := data_detail data |} in
               written <- update_one
                            (by_restaurant_and_item rid (the_product_name data))
                            (SetPositional update_data) menus ;;
               let '(result, menus') := written in
               if modified_count result >? 0
               then inr (only_msg Msg.updated 200, menus')
               else inr (only_msg Msg.no_product_change 400, menus')
           | None => inr (only_msg Msg.product_not_found 404, menus)
           end
     end).

(** DELETE /menu/<restaurant_id>/<product_name> *)
Definition delete_menu_item (restaurant_id product_name : string)
    (db : database) : response * database :=
  try_except Msg.delete_error db
    (menus <- the_menus db ;;
     rid <- ObjectId restaurant_id ;;
     match find_one (by_restaurant rid) menus with
     | None => inr (only_msg Msg.menu_not_found 404, menus)
     | Some restaurant_menu =>
         match next_named product_name (menu_items restaurant_menu) with
         | None => inr (only_msg Msg.product_not_found 404, menus)
         | Some item_to_remove =>
             written <- update_one (by_restaurant rid) (Pull product_name) menus ;;
             let '(result, menus') := written in
             if modified_count result >? 0
             then inr (only_msg Msg.deleted 200, menus')
             else inr (only_msg Msg.no_menu_change 400, menus')
         end
     end).

Definition formatted_menu (d : menu) : json :=
  JObj [("_id", JStr (str_oid (_id d)));
        ("restaurant_id", JStr (str_oid (restaurant_id d)));
        ("menu_items", JArr (map item_json (menu_items d)))].

(** GET /menu *)
Definition get_all_menus (db : database) : response :=
  fst (try_except Msg.list_error db
    (menus <- the_menus db ;;
     let all_menus := find everything menus in
     match all_menus with
     | [] => inr (only_msg Msg.no_menus 404, menus)
     | _ =>
         inr ((jsonify [("msg", JStr Msg.all_retrieved);
                        ("menus", JArr (map formatted_menu all_menus))],
               200), menus)
     end)).

(** The route table: which handler serves which request, once the route
    has matched (see [routed] for what it lets through as a path
    variable).  [fresh] is the identifier the driver would give a document
    inserted by the request. *)
Inductive request : Type :=
| POST_menu (fresh : oid) (restaurant_id : string) (data : request_json)
| GET_menu (restaurant_id : string)
| PUT_menu (restaurant_id : string) (data : request_json)
| DELETE_menu (restaurant_id product_name : string)
| GET_all.

Definition serve (req : request) (db : database) : response * database :=
  match req with
  | POST_menu fresh rid data => add_menu fresh rid data db
  | GET_menu rid => (get_menu rid db, db)
  | PUT_menu rid data => update_menu rid data db
  | DELETE_menu rid n => delete_menu_item rid n db
  | GET_all => (get_all_menus db, db)
  end.

(** ** Bodies that are no JSON object *)

(** What [request.get_json()] returns when the body is valid JSON and not
    an object. *)
Inductive non_object : Type :=
| null
| boolean (b : bool)
| integer (z : Z)
| real (f : spec_float)
| text (s : string)
| array (elts : list json).

(** [type(data).__name__] *)
Definition type_name (data : non_object) : string :=
  match data with
  | null => "NoneType"
  | boolean _ => "bool"
  | integer _ => "int"
  | real _ => "float"
  | text _ => "str"
  | array _ => "list"
  end.

(** [data.get] on such a value. *)
Definition no_get (data : non_object) : exn :=
  AttributeError (type_name data) "get".

(** [update_menu] on such a body: [data.get] on line 105 is inside the
    [try] and is reached once the menu was found. *)
Definition update_menu_non_object (restaurant_id : string) (data : non_object)
    (db : database) : response * database :=
  try_except Msg.update_error db
    (menus <- the_menus db ;;
     rid <- ObjectId restaurant_id ;;
     match find_one (by_restaurant rid) menus with
     | None => inr (only_msg Msg.menu_not_found 404, menus)
     | Some restaurant_menu => inl (no_get data)
     end).

(** What the client is sent: the response a handler returned, or, when an
    exception left the handler, the framework's own page for an internal
    server error (status 500, an HTML body). *)
Inductive answer : Type :=
| returned (r : response)
| internal_server_error (e : exn).

(** A request as it arrives: one of [request], or a POST or PUT whose
    body is no object. *)
Inductive http_request : Type :=
| with_object (req : request)
| POST_non_object (restaurant_id : string) (data : non_object)
| PUT_non_object (restaurant_id : string) (data : non_object).

(** The handler is called and what leaves it is turned into an answer.
    In [add_menu], [data.get] on line 36 is ahead of the [try] on line 46,
    so its [AttributeError] leaves the handler. *)
Definition full_dispatch_request (h : http_request) (db : database)
    : answer * database :=
  match h with
  | with_object req => (returned (fst (serve req db)), snd (serve req db))
  | POST_non_object rid data => (internal_server_error (no_get data), db)
  | PUT_non_object rid data =>
      (returned (fst (update_menu_non_object rid data db)),
       snd (update_menu_non_object rid data db))
  end.

(** ** Sample data: the scenario of the specification *)

Definition rid1 : string := "64b7f0c2a1b2c3d4e5f60718".
Definition rid1_upper : string := "64B7F0C2A1B2C3D4E5F60718".

Definition burger : request_json :=
  {| data_product_name := Some "Burger"; data_price := Some (JInt 5);
     data_detail := Some (JStr "Beef") |}.
Definition fries : request_json :=
  {| data_product_name := Some "Fries"; data_price := Some (JInt 2);
     data_detail := Some (JStr "Crispy") |}.

Definition db0 : database := Some [].
Definition db1 : database := snd (add_menu 1%N rid1 burger db0).
Definition db2 : database := snd (add_menu 2%N rid1 fries db1).

Definition burger_price_6 : request_json :=
  {| data_product_name := Some "Burger"; data_price := Some (JInt 6);
     data_detail := None |}.

Definition burger_item : menu_item :=
  {| product_name := "Burger"; price := JInt 5; detail := JStr "Beef" |}.

Definition menu2 : menu :=
  {| _id := 1%N; restaurant_id := 31170871365399813531073120024%N;
     menu_items := [burger_item;
                    {| product_name := "Fries"; price := JInt 2;
                       detail := JStr "Crispy" |}] |}.

Definition no_name : request_json :=
  {| data_product_name := None; data_price := Some (JInt 6); data_detail := None |}.

Definition other_menu : menu :=
  {| _id := 7%N; restaurant_id := 5%N;
     menu_items := [{| product_name := "Fries"; price := JInt 3;
                       detail := JStr "Salted" |}] |}.

Definition fries_price_4 : request_json :=
  {| data_product_name := Some "Fries"; data_price := Some (JInt 4);
     data_detail := Some (JStr "Crispy") |}.

Definition burger_price_huge : request_json :=
  {| data_product_name := Some "Burger"; data_price := Some (JInt (2 ^ 63));
     data_detail := Some (JStr "Beef") |}.

Definition burger_only : menu :=
  {| _id := 1%N; restaurant_id := 31170871365399813531073120024%N;
     menu_items := [burger_item] |}.

(** ** Vocabulary of the properties *)

(** The body has a member [k] holding a string. *)
Definition has_string (k : string) (body : json) : Prop :=
  exists s, field k body = Some (JStr s).

Definition is_object (body : json) : Prop :=
  exists members, body = JObj members.

(** The documents of restaurant [o], in store order. *)
Definition menus_of (o : oid) (db : database) : list menu :=
  from_option (find (by_restaurant o)) [] db.

(** An [update_menu] request would leave item [it] as it is: every field
    it supplies already has the stored value. *)
Definition no_field_change (data : request_json) (it : menu_item) : Prop :=
  (forall p, data_price data = Some p -> p = price it) /\
  (forall q, data_detail data = Some q -> q = detail it).

(** Document [d'] is document [d] except possibly for the [price] and
    [detail] of items bearing the name the request [data] gives. *)
Definition same_menu_but (data : request_json) (d d' : menu) : Prop :=
  _id d' = _id d /\ restaurant_id d' = restaurant_id d /\
  Forall2 (fun it it' =>
             product_name it' = product_name it /\
             (it' = it \/ data_product_name data = Some (product_name it)))
          (menu_items d) (menu_items d').

(** Item [it'] is item [it] after an [update_menu] request for [data]. *)
Definition item_after (data : request_json) (it : menu_item) : menu_item :=
  {| product_name := product_name it;
     price := default (price it) (data_price data);
     detail := default (detail it) (data_detail data) |}.

(** The three shapes a response takes. *)
Inductive shaped : response -> Prop :=
| shaped_plain m s :
    s <> 500 -> shaped (only_msg m s)
| shaped_payload m k v :
    k <> "msg" -> k <> "error" ->
    shaped (jsonify [("msg", JStr m); (k, v)], 200)
| shaped_fault m e :
    shaped (jsonify [("msg", JStr m); ("error", JStr e)], 500).

Ltac plain := apply shaped_plain; discriminate.
Ltac payload := apply shaped_payload; discriminate.
Ltac among := solve [repeat constructor].

(** Case analysis on the write of a handler: raised, or done. *)
Ltac store_cases :=
  repeat match goal with
         | |- context [update_one ?q ?u ?c] =>
             destruct (update_one q u c) as [?|[? ?]]; simpl
         | |- context [insert_one ?f ?r ?i ?c] =>
             destruct (insert_one f r i c) as [?|?]; simpl
         end.

(** ** Start-up, request sequences and what a request does to the store *)

(** Lines 17-27: the collection handle is bound when the ping answers and
    left unbound when it raises [ConnectionFailure], which is only
    printed.  [stored] is what the collection holds at that time. *)
Inductive ping : Type :=
| pong
| connection_failure.

Definition startup (p : ping) (stored : list menu) : database :=
  match p with
  | pong => Some stored
  | connection_failure => None
  end.

(** The restaurant id in the path of a request, when it has one. *)
Definition request_id (req : request) : option string :=
  match req with
  | POST_menu _ rid _ => Some rid
  | GET_menu rid => Some rid
  | PUT_menu rid _ => Some rid
  | DELETE_menu rid _ => Some rid
  | GET_all => None
  end.

Definition is_mutation (req : request) : bool :=
  match req with
  | POST_menu _ _ _ | PUT_menu _ _ | DELETE_menu _ _ => true
  | GET_menu _ | GET_all => false
  end.

(** What the default converter of a route lets through as a path
    variable: a non-empty text without a slash.  A handler is only ever
    called with such values. *)
Definition is_segment (s : string) : bool :=
  negb (String.eqb s "") && negb (contains "/"%char s).

Definition routed (req : request) : bool :=
  match req with
  | POST_menu _ rid _ | GET_menu rid | PUT_menu rid _ => is_segment rid
  | DELETE_menu rid n => is_segment rid && is_segment n
  | GET_all => true
  end.

Definition http_routed (h : http_request) : bool :=
  match h with
  | with_object req => routed req
  | POST_non_object rid _ | PUT_non_object rid _ => is_segment rid
  end.

Definition is_space (c : ascii) : bool :=
  let n := N_of_ascii c in
  (n =? 32)%N || ((9 <=? n)%N && (n <=? 13)%N).

(** An id that [ObjectId] refuses without a doubt: not 24 characters, or
    with a character that is neither a hexadecimal digit nor white
    space. *)
Definition surely_invalid (rid : string) : bool :=
  negb (Nat.eqb (String.length rid) 24)
  || existsb (fun ch => negb (is_Some_bool (hex_digit ch)) && negb (is_space ch))
       (list_ascii_of_string rid).

(** The exception the encoder raises on the fields an [update_menu]
    request supplies, if any. *)
Definition supplied_error (data : request_json) : option exn :=
  update_error (SetPositional {| set_price := data_price data;
                                 set_detail := data_detail data |}).

(** The body and status of an [except] branch. *)
Definition fault_response (msg : string) (e : exn) : response :=
  (jsonify [("msg", JStr msg); ("error", JStr (str_exn e))], 500).

(** The message of the handler's [except] branch. *)
Definition error_msg (req : request) : string :=
  match req with
  | POST_menu _ _ _ => Msg.add_error
  | GET_menu _ => Msg.get_error
  | PUT_menu _ _ => Msg.update_error
  | DELETE_menu _ _ => Msg.delete_error
  | GET_all => Msg.list_error
  end.

(** The one check made ahead of the [try]: the guard of [add_menu]. *)
Definition refused_before_try (req : request) : bool :=
  match req with
  | POST_menu _ _ data => missing_required data
  | _ => false
  end.

(** Requests served one after the other. *)
Definition run (reqs : list request) (db : database) : database :=
  foldl (fun db req => snd (serve req db)) db reqs.

(** The responses to requests served one after the other. *)
Fixpoint responses (reqs : list request) (db : database) : list response :=
  match reqs with
  | [] => []
  | req :: rest => fst (serve req db) :: responses rest (snd (serve req db))
  end.

(** At most one document per restaurant. *)
Definition unique_restaurants (c : list menu) : Prop :=
  NoDup (map restaurant_id c).

(** No item has the empty name. *)
Definition names_nonempty (c : list menu) : Prop :=
  Forall (fun d => Forall (fun it => product_name it <> "") (menu_items d)) c.

(** The values Python takes for false. *)
Definition falsy (v : json) : Prop :=
  v = JNull \/ v = JBool false \/ v = JInt 0
  \/ (exists negative, v = JFloat (S754_zero negative))
  \/ v = JStr "" \/ v = JArr [] \/ v = JObj [].

(** What serving [req] on the collection [c] comes to: the response and
    the collection afterwards. *)
Inductive outcome (c : list menu) : request -> response -> list menu -> Prop :=
| outcome_kept req r :
    (is_mutation req = false /\ snd r = 200) \/ 400 <= snd r ->
    outcome c req r c
| outcome_created fresh rid data o :
    ObjectId rid = inr o ->
    missing_required data = false ->
    find_one (by_restaurant o) c = None ->
    outcome c (POST_menu fresh rid data) (only_msg Msg.created 201)
      (c ++ [{| _id := fresh; restaurant_id := o;
                menu_items := [new_menu_item data] |}])
| outcome_appended fresh rid data o i d :
    ObjectId rid = inr o ->
    missing_required data = false ->
    list_find (matches (by_restaurant o)) c = Some (i, d) ->
    outcome c (POST_menu fresh rid data) (only_msg Msg.appended 200)
      (<[i := with_items d (menu_items d ++ [new_menu_item data])]> c)
| outcome_updated rid data o i d j it :
    ObjectId rid = inr o ->
    list_find (matches (by_restaurant o)) c = Some (i, d) ->
    truthy (get_product_name data) = true ->
    list_find (has_name (the_product_name data)) (menu_items d) = Some (j, it) ->
    supplied_error data = None ->
    item_after data it <> it ->
    outcome c (PUT_menu rid data) (only_msg Msg.updated 200)
      (<[i := with_items d (<[j := item_after data it]> (menu_items d))]> c)
| outcome_deleted rid n o i d :
    ObjectId rid = inr o ->
    list_find (matches (by_restaurant o)) c = Some (i, d) ->
    Exists (has_name n) (menu_items d) ->
    outcome c (DELETE_menu rid n) (only_msg Msg.deleted 200)
      (<[i := with_items d (filter (fun it => ~ has_name n it) (menu_items d))]> c).

(** ** Facts about the store operations *)

Lemma matches_by_restaurant o d :
  matches (by_restaurant o) d <-> restaurant_id d = o.
Proof. unfold matches; simpl. tauto. Qed.

Lemma matches_by_restaurant_and_item o n d :
  matches (by_restaurant_and_item o n) d <->
  restaurant_id d = o /\ Exists (has_name n) (menu_items d).
Proof. unfold matches; simpl. tauto. Qed.

Lemma find_one_Some q c d :
  find_one q c = Some d <-> exists i, list_find (matches q) c = Some (i, d).
Proof.
  unfold find_one. split.
  - destruct (list_find (matches q) c) as [[i d']|] eqn:E; simpl; [|discriminate].
    intros [= ->]. eauto.
  - intros [i ->]. reflexivity.
Qed.

Lemma find_one_None q c :
  find_one q c = None <-> list_find (matches q) c = None.
Proof.
  unfold find_one. destruct (list_find (matches q) c) as [[i d]|]; simpl; split;
    (discriminate || reflexivity).
Qed.

Lemma next_named_Some n items it :
  next_named n items = Some it <-> exists j, list_find (has_name n) items = Some (j, it).
Proof.
  unfold next_named. split.
  - destruct (list_find (has_name n) items) as [[j it']|]; simpl; [|discriminate].
    intros [= ->]. eauto.
  - intros [j ->]. reflexivity.
Qed.

Lemma next_named_None n items :
  next_named n items = None <-> Forall (fun it => product_name it <> n) items.
Proof.
  unfold next_named.
  destruct (list_find (has_name n) items) as [[j it]|] eqn:E; simpl.
  - split; [discriminate|]. intros H.
    apply list_find_Some in E as (Hj & Hn & _).
    rewrite Forall_lookup in H. now destruct (H j it Hj).
  - split; [|reflexivity]. intros _. now apply list_find_None in E.
Qed.

(** Once the named item was seen in the first document of the restaurant,
    the narrower filter of [update_menu] selects that same document. *)
Lemma list_find_narrow o n c i d j it :
  list_find (matches (by_restaurant o)) c = Some (i, d) ->
  list_find (has_name n) (menu_items d) = Some (j, it) ->
  list_find (matches (by_restaurant_and_item o n)) c = Some (i, d).
Proof.
  intros Hd Hit.
  apply list_find_Some in Hd as (Hi & Hm & Hfirst).
  apply list_find_Some in Hit as (Hj & Hn & _).
  apply list_find_Some. split; [exact Hi|]. split.
  - apply matches_by_restaurant_and_item. split.
    + now apply matches_by_restaurant in Hm.
    + apply Exists_exists. exists it. split; [|exact Hn].
      eapply list_elem_of_lookup_2; eauto.
  - intros k y Hk Hlt Hy. apply (Hfirst k y Hk Hlt).
    apply matches_by_restaurant.
    now apply matches_by_restaurant_and_item in Hy as [? _].
Qed.

Lemma with_items_same d items :
  with_items d items = d <-> items = menu_items d.
Proof.
  destruct d as [i r its]; unfold with_items; simpl. split.
  - intros [= ->]. reflexivity.
  - intros ->. reflexivity.
Qed.

Lemma insert_same {A} (l : list A) j x y :
  l !! j = Some x -> <[j := y]> l = l <-> y = x.
Proof.
  intros Hj. split.
  - intros E. assert (H : <[j := y]> l !! j = Some y).
    { apply list_lookup_insert_eq. eapply lookup_lt_Some; eauto. }
    rewrite E, Hj in H. congruence.
  - intros ->. now apply list_insert_id.
Qed.

Lemma filter_all_kept {A} (P : A -> Prop) `{forall x, Decision (P x)} (l : list A) :
  filter P l = l -> Forall P l.
Proof.
  intros E. apply Forall_forall. intros x Hx.
  rewrite <- E in Hx. now apply list_elem_of_filter in Hx as [? _].
Qed.

Lemma list_find_restaurant o (c : list menu) i d :
  list_find (matches (by_restaurant o)) c = Some (i, d) -> restaurant_id d = o.
Proof.
  intros H. apply list_find_Some in H as (_ & Hm & _).
  now apply matches_by_restaurant in Hm.
Qed.

(** Rewriting the first document of a restaurant keeps it the first. *)
Lemma find_one_insert o (c : list menu) i d d' :
  list_find (matches (by_restaurant o)) c = Some (i, d) ->
  restaurant_id d' = o ->
  find_one (by_restaurant o) (<[i := d']> c) = Some d'.
Proof.
  intros Hd Hr. apply find_one_Some. exists i.
  apply list_find_Some in Hd as (Hi & _ & Hfirst).
  apply list_find_Some. split; [|split].
  - apply list_lookup_insert_eq. eapply lookup_lt_Some; eauto.
  - now apply matches_by_restaurant.
  - intros k y Hk Hlt. rewrite list_lookup_insert_ne in Hk by lia.
    now apply Hfirst with k.
Qed.

(** A document inserted for a restaurant without one is found, last. *)
Lemma find_one_app_new o (c : list menu) d :
  find_one (by_restaurant o) c = None ->
  restaurant_id d = o ->
  list_find (matches (by_restaurant o)) (c ++ [d]) = Some (length c, d).
Proof.
  intros Hf Hr. apply find_one_None in Hf.
  rewrite list_find_app_r by exact Hf.
  simpl. rewrite decide_True by now apply matches_by_restaurant.
  reflexivity.
Qed.

(** ** The handlers, path by path *)

(** The paths past [ObjectId(restaurant_id)], on a bound collection. *)
Section valid_id.

Variables (rid : string) (o : oid) (c : list menu).
Hypothesis Hid : ObjectId rid = inr o.

Lemma add_menu_created fresh data :
  missing_required data = false ->
  item_error (new_menu_item data) = None ->
  find_one (by_restaurant o) c = None ->
  add_menu fresh rid data (Some c) =
    (only_msg Msg.created 201,
     Some (c ++ [{| _id := fresh; restaurant_id := o;
                    menu_items := [new_menu_item data] |}])).
Proof.
  intros Hv He Hf. unfold add_menu. rewrite Hv. simpl. rewrite Hid. simpl.
  rewrite Hf. unfold insert_one. simpl. rewrite He. reflexivity.
Qed.

Lemma add_menu_appended fresh data i d :
  missing_required data = false ->
  item_error (new_menu_item data) = None ->
  list_find (matches (by_restaurant o)) c = Some (i, d) ->
  add_menu fresh rid data (Some c) =
    (only_msg Msg.appended 200,
     Some (<[i := with_items d (menu_items d ++ [new_menu_item data])]> c)).
Proof.
  intros Hv He Hf. unfold add_menu. rewrite Hv. simpl. rewrite Hid. simpl.
  unfold find_one, update_one. rewrite Hf. simpl. rewrite He. reflexivity.
Qed.

(** The encoder raises before anything is sent: nothing is stored. *)
Lemma add_menu_not_encoded fresh data e :
  missing_required data = false ->
  item_error (new_menu_item data) = Some e ->
  add_menu fresh rid data (Some c) = (fault_response Msg.add_error e, Some c).
Proof.
  intros Hv He. unfold add_menu. rewrite Hv. simpl. rewrite Hid. simpl.
  destruct (find_one (by_restaurant o) c).
  - unfold update_one. simpl. rewrite He. reflexivity.
  - unfold insert_one. simpl. rewrite He. reflexivity.
Qed.

Lemma get_menu_found d :
  find_one (by_restaurant o) c = Some d ->
  get_menu rid (Some c) =
    (jsonify [("msg", JStr Msg.retrieved);
              ("menu", JArr (map item_json (menu_items d)))], 200).
Proof.
  intros Hf. unfold get_menu. simpl. rewrite Hid. simpl. now rewrite Hf.
Qed.

Lemma update_menu_no_menu data :
  find_one (by_restaurant o) c = None ->
  update_menu rid data (Some c) = (only_msg Msg.menu_not_found 404, Some c).
Proof.
  intros Hf. unfold update_menu. simpl. rewrite Hid. simpl. now rewrite Hf.
Qed.

Lemma update_menu_found data i d j it :
  list_find (matches (by_restaurant o)) c = Some (i, d) ->
  truthy (get_product_name data) = true ->
  list_find (has_name (the_product_name data)) (menu_items d) = Some (j, it) ->
  supplied_error data = None ->
  update_menu rid data (Some c) =
    if decide (item_after data it = it)
    then (only_msg Msg.no_product_change 400, Some c)
    else (only_msg Msg.updated 200,
          Some (<[i := with_items d (<[j := item_after data it]> (menu_items d))]> c)).
Proof.
  intros Hd Hn Hit He. unfold update_menu. simpl. rewrite Hid. simpl.
  unfold find_one. rewrite Hd. simpl. rewrite Hn. simpl.
  unfold next_named. rewrite Hit. simpl.
  unfold update_one. unfold supplied_error in He. rewrite He.
  rewrite (list_find_narrow _ _ _ _ _ _ _ Hd Hit).
  simpl. rewrite Hit.
  change (apply_set _ it) with (item_after data it).
  apply list_find_Some in Hit as (Hj & _ & _).
  apply list_find_Some in Hd as (Hi & _ & _).
  destruct (decide (item_after data it = it)) as [E|E].
  - rewrite E. rewrite (list_insert_id _ _ _ Hj).
    assert (Hw : with_items d (menu_items d) = d) by now apply with_items_same.
    rewrite Hw. rewrite decide_True by reflexivity. simpl.
    do 2 f_equal. now apply list_insert_id.
  - rewrite decide_False; [reflexivity|].
    rewrite with_items_same. rewrite (insert_same _ _ _ _ Hj). exact E.
Qed.

Lemma update_menu_not_encoded data d it e :
  find_one (by_restaurant o) c = Some d ->
  truthy (get_product_name data) = true ->
  next_named (the_product_name data) (menu_items d) = Some it ->
  supplied_error data = Some e ->
  update_menu rid data (Some c) = (fault_response Msg.update_error e, Some c).
Proof.
  intros Hd Hn Hit He. unfold update_menu. simpl. rewrite Hid. simpl.
  rewrite Hd, Hn. simpl. rewrite Hit.
  unfold update_one. unfold supplied_error in He. rewrite He. reflexivity.
Qed.

Lemma delete_menu_item_no_menu n :
  find_one (by_restaurant o) c = None ->
  delete_menu_item rid n (Some c) = (only_msg Msg.menu_not_found 404, Some c).
Proof.
  intros Hf. unfold delete_menu_item. simpl. rewrite Hid. simpl. now rewrite Hf.
Qed.

Lemma delete_menu_item_no_item n d :
  find_one (by_restaurant o) c = Some d ->
  Forall (fun it => product_name it <> n) (menu_items d) ->
  delete_menu_item rid n (Some c) = (only_msg Msg.product_not_found 404, Some c).
Proof.
  intros Hf Hall. unfold delete_menu_item. simpl. rewrite Hid. simpl.
  rewrite Hf. apply next_named_None in Hall. now rewrite Hall.
Qed.

Lemma delete_menu_item_found n i d :
  list_find (matches (by_restaurant o)) c = Some (i, d) ->
  Exists (has_name n) (menu_items d) ->
  delete_menu_item rid n (Some c) =
    (only_msg Msg.deleted 200,
     Some (<[i := with_items d (filter (fun it => ~ has_name n it) (menu_items d))]> c)).
Proof.
  intros Hd Hex. unfold delete_menu_item. simpl. rewrite Hid. simpl.
  unfold find_one. rewrite Hd. simpl.
  destruct (next_named n (menu_items d)) as [it|] eqn:Hit.
  - rewrite decide_False; [reflexivity|].
    rewrite with_items_same. intros E. apply filter_all_kept in E.
    apply Exists_exists in Hex as (x & Hx & Hn).
    rewrite Forall_forall in E. now apply (E x Hx).
  - apply next_named_None in Hit. exfalso.
    apply Exists_exists in Hex as (x & Hx & Hn).
    rewrite Forall_forall in Hit. now apply (Hit x Hx).
Qed.

(** A request that passes the guard of [add_menu] and encodes, or raises
    the encoder's exception. *)
Lemma item_error_cases (it : menu_item) :
  item_error it = None \/ exists e, item_error it = Some e.
Proof. destruct (item_error it) as [e|]; [right; now exists e | now left]. Qed.

End valid_id.

(** ** The claims *)

Lemma truthy_request n p q :
  n <> "" -> truthy p = true -> truthy q = true ->
  missing_required {| data_product_name := Some n; data_price := Some p;
                      data_detail := Some q |} = false.
Proof.
  intros Hn Hp Hq. unfold missing_required, get_product_name, get_price, get_detail.
  simpl. rewrite Hp, Hq. destruct n; [contradiction | reflexivity].
Qed.




Lemma item_after_same data it :
  item_after data it = it <-> no_field_change data it.
Proof.
  destruct it as [n p q]. unfold item_after, no_field_change. simpl. split.
  - intros [= Hp Hq]. split.
    + intros p' E. rewrite E in Hp. exact Hp.
    + intros q' E. rewrite E in Hq. exact Hq.
  - intros [Hp Hq]. f_equal.
    + destruct (data_price data) as [p'|]; simpl; [now apply Hp | reflexivity].
    + destruct (data_detail data) as [q'|]; simpl; [now apply Hq | reflexivity].
Qed.

(** C2, as the claim has it, fails: the menu and the item exist and the
    supplied price differs from the stored one, yet the answer is neither
    the 400 "No changes made" nor 200 but 500, the price being an integer
    that does not fit eight bytes. *)
Lemma update_menu_answers_500_on_huge_price :
  ~ (forall rid o data c d it,
       ObjectId rid = inr o ->
       find_one (by_restaurant o) c = Some d ->
       truthy (get_product_name data) = true ->
       next_named (the_product_name data) (menu_items d) = Some it ->
       fst (update_menu rid data (Some c)) = only_msg Msg.no_product_change 400
       \/ fst (update_menu rid data (Some c)) = only_msg Msg.updated 200).
Proof.
  intros H.
  destruct (H rid1 31170871365399813531073120024%N burger_price_huge [menu2]
              menu2 burger_item eq_refl eq_refl eq_refl eq_refl) as [E|E];
    discriminate E.
Qed.

(** C2, amended.  When the menu exists, the request names an existing
    item and the answer is not 500 (the store took the update), then
    [update_menu] answers 400 "No changes made to the product" exactly
    when no supplied field differs from the stored one (in particular
    when neither [price] nor [detail] is supplied, and when both are
    supplied with the stored values), and 200 exactly otherwise. *)
Theorem update_menu_no_change_outcome
    (rid : string) (o : oid) (data : request_json) (c : list menu)
    (d : menu) (it : menu_item) :
  ObjectId rid = inr o ->
  find_one (by_restaurant o) c = Some d ->
  truthy (get_product_name data) = true ->
  next_named (the_product_name data) (menu_items d) = Some it ->
  let r := update_menu rid data (Some c) in
  snd (fst r) <> 500 ->
  (fst r = only_msg Msg.no_product_change 400 <-> no_field_change data it)
  /\ (fst r = only_msg Msg.updated 200 <-> ~ no_field_change data it)
  /\ (no_field_change data it -> snd r = Some c)
  /\ (data_price data = None -> data_detail data = None ->
      fst r = only_msg Msg.no_product_change 400)
  /\ (data_price data = Some (price it) -> data_detail data = Some (detail it) ->
      fst r = only_msg Msg.no_product_change 400).
Proof.
  intros Ho Hd Hn Hit r H500.
  assert (He : supplied_error data = None).
  { destruct (supplied_error data) as [e|] eqn:He; [|reflexivity].
    exfalso. apply H500. unfold r.
    now rewrite (update_menu_not_encoded rid o c Ho data d it e Hd Hn Hit He). }
  apply find_one_Some in Hd as [i Hd].
  apply next_named_Some in Hit as [j Hit].
  assert (E := update_menu_found rid o c Ho data i d j it Hd Hn Hit He).
  fold r in E.
  assert (Hcase : (no_field_change data it /\ r = (only_msg Msg.no_product_change 400, Some c))
               \/ (~ no_field_change data it /\ fst r = only_msg Msg.updated 200)).
  { destruct (decide (item_after data it = it)) as [S|S].
    - left. split; [now apply item_after_same | exact E].
    - right. split; [now rewrite <- item_after_same | now rewrite E]. }
  assert (Hno : no_field_change data it -> fst r = only_msg Msg.no_product_change 400).
  { intros H. destruct Hcase as [[_ ->]|[N _]]; [reflexivity | contradiction]. }
  split; [|split; [|split; [|split]]].
  - split; [|exact Hno].
    intros H. destruct Hcase as [[Y _]|[_ H']]; [exact Y|].
    rewrite H' in H. discriminate.
  - split.
    + intros H Y. apply Hno in Y. rewrite Y in H. discriminate.
    + intros N. destruct Hcase as [[Y _]|[_ H']]; [contradiction | exact H'].
  - intros Y. destruct Hcase as [[_ ->]|[N _]]; [reflexivity | contradiction].
  - intros Hp Hq. apply Hno. split; intros ? E'; congruence.
  - intros Hp Hq. apply Hno. split; intros ? E'; congruence.
Qed.

Lemma update_menu_no_change_outcome_witness :
  let r := update_menu rid1 burger_price_6 (Some [menu2]) in
  (fst r = only_msg Msg.no_product_change 400 <-> no_field_change burger_price_6 burger_item)
  /\ (fst r = only_msg Msg.updated 200 <-> ~ no_field_change burger_price_6 burger_item)
  /\ (no_field_change burger_price_6 burger_item -> snd r = Some [menu2])
  /\ (data_price burger_price_6 = None -> data_detail burger_price_6 = None ->
      fst r = only_msg Msg.no_product_change 400)
  /\ (data_price burger_price_6 = Some (price burger_item) ->
      data_detail burger_price_6 = Some (detail burger_item) ->
      fst r = only_msg Msg.no_product_change 400).
Proof.
  apply (update_menu_no_change_outcome rid1 31170871365399813531073120024%N
           burger_price_6 [menu2] menu2 burger_item); try reflexivity.
  discriminate.
Defined.

(** C4, as the claim has it, fails: a supplied price that is an integer
    outside eight bytes is not written; the request is answered 500 and
    the matched item keeps its price. *)
Lemma update_menu_keeps_price_on_huge_price :
  ~ (forall rid o data c d j it p,
       ObjectId rid = inr o ->
       find_one (by_restaurant o) c = Some d ->
       truthy (get_product_name data) = true ->
       list_find (has_name (the_product_name data)) (menu_items d) = Some (j, it) ->
       data_price data = Some p ->
       exists c' d' it',
         snd (update_menu rid data (Some c)) = Some c'
         /\ find_one (by_restaurant o) c' = Some d'
         /\ menu_items d' !! j = Some it'
         /\ price it' = p).
Proof.
  intros H.
  destruct (H rid1 31170871365399813531073120024%N burger_price_huge [menu2]
              menu2 0%nat burger_item (JInt (2 ^ 63))
              eq_refl eq_refl eq_refl eq_refl eq_refl)
    as (c' & d' & it' & Hc & Hd & Hit & Hp).
  vm_compute in Hc. injection Hc as <-.
  vm_compute in Hd. injection Hd as <-.
  vm_compute in Hit. injection Hit as <-.
  discriminate Hp.
Qed.

(** C4, amended.  On an existing menu holding an item with exactly the
    requested [product_name], [update_menu] touches the first such item
    only: its name stays, a field the request does not supply keeps its
    value, and every other position of the menu is unchanged.  When the
    answer is not 500 (the store took the update) every supplied field has
    the value of the request; when it is 500 the item is as it was. *)
Theorem update_menu_overwrites_only_supplied
    (rid : string) (o : oid) (data : request_json) (c : list menu)
    (d : menu) (j : nat) (it : menu_item) :
  ObjectId rid = inr o ->
  find_one (by_restaurant o) c = Some d ->
  truthy (get_product_name data) = true ->
  list_find (has_name (the_product_name data)) (menu_items d) = Some (j, it) ->
  exists (c' : list menu) (d' : menu) (it' : menu_item),
    snd (update_menu rid data (Some c)) = Some c'
    /\ find_one (by_restaurant o) c' = Some d'
    /\ _id d' = _id d
    /\ length (menu_items d') = length (menu_items d)
    /\ menu_items d' !! j = Some it'
    /\ product_name it' = product_name it
    /\ (snd (fst (update_menu rid data (Some c))) <> 500 ->
        price it' = match data_price data with Some p => p | None => price it end
        /\ detail it' = match data_detail data with Some q => q | None => detail it end)
    /\ (snd (fst (update_menu rid data (Some c))) = 500 -> it' = it)
    /\ (data_price data = None -> price it' = price it)
    /\ (data_detail data = None -> detail it' = detail it)
    /\ forall k, k <> j -> menu_items d' !! k = menu_items d !! k.
Proof.
  intros Ho Hd Hn Hit.
  pose proof Hd as Hd0.
  pose proof Hit as Hit0.
  apply list_find_Some in Hit0 as (Hj & _ & _).
  destruct (supplied_error data) as [e|] eqn:He.
  { exists c, d, it.
    rewrite (update_menu_not_encoded rid o c Ho data d it e Hd0 Hn
               (proj2 (next_named_Some _ _ _) (ex_intro _ j Hit)) He).
    simpl. repeat split; try reflexivity; try assumption.
    all: exfalso; now apply H. }
  apply find_one_Some in Hd as [i Hd].
  assert (E := update_menu_found rid o c Ho data i d j it Hd Hn Hit He).
  destruct (decide (item_after data it = it)) as [S|S].
  - exists c, d, it. rewrite E. simpl.
    repeat split; try reflexivity; try assumption; try discriminate.
    + rewrite <- S at 1. reflexivity.
    + rewrite <- S at 1. reflexivity.
  - exists (<[i := with_items d (<[j := item_after data it]> (menu_items d))]> c),
           (with_items d (<[j := item_after data it]> (menu_items d))),
           (item_after data it).
    rewrite E. simpl. repeat split; try reflexivity; try discriminate.
    + apply (find_one_insert o c i d _ Hd). simpl.
      now apply list_find_restaurant in Hd.
    + apply length_insert.
    + apply list_lookup_insert_eq. eapply lookup_lt_Some; eauto.
    + intros ->. reflexivity.
    + intros ->. reflexivity.
    + intros k Hk. now apply list_lookup_insert_ne.
Qed.

Lemma update_menu_overwrites_only_supplied_witness :
  exists (c' : list menu) (d' : menu) (it' : menu_item),
    snd (update_menu rid1 burger_price_6 (Some [menu2])) = Some c'
    /\ find_one (by_restaurant 31170871365399813531073120024%N) c' = Some d'
    /\ _id d' = _id menu2
    /\ length (menu_items d') = length (menu_items menu2)
    /\ menu_items d' !! 0%nat = Some it'
    /\ product_name it' = product_name burger_item
    /\ (snd (fst (update_menu rid1 burger_price_6 (Some [menu2]))) <> 500 ->
        price it' = match data_price burger_price_6 with
                    | Some p => p | None => price burger_item end
        /\ detail it' = match data_detail burger_price_6 with
                        | Some q => q | None => detail burger_item end)
    /\ (snd (fst (update_menu rid1 burger_price_6 (Some [menu2]))) = 500 ->
        it' = burger_item)
    /\ (data_price burger_price_6 = None -> price it' = price burger_item)
    /\ (data_detail burger_price_6 = None -> detail it' = detail burger_item)
    /\ forall k, k <> 0%nat -> menu_items d' !! k = menu_items menu2 !! k.
Proof.
  apply (update_menu_overwrites_only_supplied rid1 31170871365399813531073120024%N
           burger_price_6 [menu2] menu2 0%nat burger_item); reflexivity.
Defined.

(** C5.  When the menu exists and holds an item with the given name,
    [delete_menu_item] answers 200 and the menu keeps, in order, exactly
    the items with another name (every duplicate of the name is gone);
    when there is no menu or no item of that name it answers 404 and the
    store is as before. *)
Theorem delete_menu_item_removes_all_named
    (rid : string) (o : oid) (n : string) (c : list menu) :
  ObjectId rid = inr o ->
  match find_one (by_restaurant o) c with
  | None =>
      delete_menu_item rid n (Some c) = (only_msg Msg.menu_not_found 404, Some c)
  | Some d =>
      if decide (Exists (has_name n) (menu_items d)) then
        exists (c' : list menu) (d' : menu),
          delete_menu_item rid n (Some c) = (only_msg Msg.deleted 200, Some c')
          /\ find_one (by_restaurant o) c' = Some d'
          /\ menu_items d' = filter (fun it => ~ has_name n it) (menu_items d)
          /\ Forall (fun it => product_name it <> n) (menu_items d')
          /\ (forall it, product_name it <> n ->
                it ∈ menu_items d -> it ∈ menu_items d')
          /\ sublist (menu_items d') (menu_items d)
      else
        delete_menu_item rid n (Some c) = (only_msg Msg.product_not_found 404, Some c)
  end.
Proof.
  intros Ho. destruct (find_one (by_restaurant o) c) as [d|] eqn:Hd.
  - destruct (decide (Exists (has_name n) (menu_items d))) as [Hex|Hno].
    + apply find_one_Some in Hd as [i Hd].
      exists (<[i := with_items d (filter (fun it => ~ has_name n it) (menu_items d))]> c),
             (with_items d (filter (fun it => ~ has_name n it) (menu_items d))).
      split; [now apply (delete_menu_item_found rid o c Ho n i d)|].
      split.
      { apply (find_one_insert o c i d _ Hd). simpl.
        now apply list_find_restaurant in Hd. }
      simpl. split; [reflexivity|]. split; [|split].
      * apply Forall_forall. intros it Hin.
        now apply list_elem_of_filter in Hin as [Hne _].
      * intros it Hne Hin. apply list_elem_of_filter. now split.
      * apply sublist_filter.
    + apply (delete_menu_item_no_item rid o c Ho n d Hd).
      apply Forall_forall. intros it Hin Hn. apply Hno.
      apply Exists_exists. now exists it.
  - now apply (delete_menu_item_no_menu rid o c Ho n).
Qed.

Lemma delete_menu_item_removes_all_named_witness :
  (exists (c' : list menu) (d' : menu),
      delete_menu_item rid1 "Fries" (Some [menu2]) = (only_msg Msg.deleted 200, Some c')
      /\ find_one (by_restaurant 31170871365399813531073120024%N) c' = Some d'
      /\ menu_items d' = filter (fun it => ~ has_name "Fries" it) (menu_items menu2)
      /\ Forall (fun it => product_name it <> "Fries") (menu_items d')
      /\ (forall it, product_name it <> "Fries" ->
            it ∈ menu_items menu2 -> it ∈ menu_items d')
      /\ sublist (menu_items d') (menu_items menu2))
  /\ delete_menu_item rid1 "Pizza" (Some [menu2]) =
       (only_msg Msg.product_not_found 404, Some [menu2])
  /\ delete_menu_item rid1 "Fries" (Some []) =
       (only_msg Msg.menu_not_found 404, Some []).
Proof.
  split; [|split].
  - exact (delete_menu_item_removes_all_named rid1 31170871365399813531073120024%N
             "Fries" [menu2] eq_refl).
  - exact (delete_menu_item_removes_all_named rid1 31170871365399813531073120024%N
             "Pizza" [menu2] eq_refl).
  - exact (delete_menu_item_removes_all_named rid1 31170871365399813531073120024%N
             "Fries" [] eq_refl).
Defined.

Lemma find_everything (c : list menu) : find everything c = c.
Proof.
  unfold find. induction c as [|d c IH]; [reflexivity|].
  rewrite filter_cons_True; [now rewrite IH|]. unfold matches; simpl. tauto.
Qed.

Lemma get_all_menus_nonempty (c : list menu) :
  c <> [] ->
  get_all_menus (Some c) =
    (jsonify [("msg", JStr Msg.all_retrieved);
              ("menus", JArr (map formatted_menu c))], 200).
Proof.
  intros Hne. unfold get_all_menus. simpl. rewrite find_everything.
  destruct c; [contradiction | reflexivity].
Qed.



(** C7 (the code departs from it).  A request whose three fields are all
    present, with the number 0 as [price], is answered 400 "Missing
    required fields" by [add_menu], and nothing is stored. *)
Theorem add_menu_rejects_zero_price :
  let data := {| data_product_name := Some "Water";
                 data_price := Some (JInt 0);
                 data_detail := Some (JStr "Free") |} in
  is_Some (data_product_name data) /\ is_Some (data_price data)
  /\ is_Some (data_detail data)
  /\ add_menu 1%N rid1 data (Some []) = (only_msg Msg.missing_fields 400, Some [])
  /\ fst (update_menu rid1
            {| data_product_name := Some "Burger"; data_price := Some (JInt 0);
               data_detail := None |} (Some [menu2]))
     = only_msg Msg.updated 200.
Proof.
  simpl. repeat split; eauto.
Qed.

(** The guard of [add_menu] is a test of truth values, and it is the only
    way to the 400 answer: the request is refused exactly when one of the
    three values is absent, [null], [false], [0] or empty. *)
Lemma add_menu_refuses_iff fresh rid data db :
  (missing_required data = true ->
     add_menu fresh rid data db = (only_msg Msg.missing_fields 400, db))
  /\ (snd (fst (add_menu fresh rid data db)) = 400 <-> missing_required data = true).
Proof.
  split.
  - intros H. unfold add_menu. now rewrite H.
  - unfold add_menu. destruct (missing_required data); [now split|].
    split; [|discriminate].
    destruct db as [c|]; simpl; [|discriminate].
    destruct (ObjectId rid) as [e|o]; simpl; [discriminate|].
    destruct (find_one (by_restaurant o) c); store_cases; discriminate.
Qed.

(** C10.  [update_menu] looks for the menu before it looks at the body:
    on an id without a menu the answer is 404 whatever the body holds, and
    the 400 answer for a missing [product_name] is only given when a menu
    exists. *)
Theorem update_menu_checks_menu_first
    (rid : string) (data : request_json) (db : database) :
  (forall o c, db = Some c -> ObjectId rid = inr o ->
     find_one (by_restaurant o) c = None ->
     update_menu rid data db = (only_msg Msg.menu_not_found 404, db))
  /\ (fst (update_menu rid data db) = only_msg Msg.name_required 400 ->
      exists o c d, db = Some c /\ ObjectId rid = inr o
        /\ find_one (by_restaurant o) c = Some d
        /\ truthy (get_product_name data) = false).
Proof.
  split.
  - intros o c -> Ho Hf. now apply (update_menu_no_menu rid o c Ho data).
  - unfold update_menu. destruct db as [c|]; simpl; [|discriminate].
    destruct (ObjectId rid) as [e|o]; simpl; [discriminate|].
    destruct (find_one (by_restaurant o) c) as [d|] eqn:Hd; simpl; [|discriminate].
    destruct (truthy (get_product_name data)) eqn:Hn; simpl.
    + destruct (next_named _ _); simpl; [|discriminate].
      store_cases; [discriminate|].
      destruct (modified_count _ >? 0); discriminate.
    + intros _. exists o, c, d. now repeat split.
Qed.

Lemma update_menu_checks_menu_first_witness :
  update_menu rid1 no_name (Some []) = (only_msg Msg.menu_not_found 404, Some [])
  /\ exists o c d, Some [menu2] = Some c /\ ObjectId rid1 = inr o
       /\ find_one (by_restaurant o) c = Some d
       /\ truthy (get_product_name no_name) = false.
Proof.
  split.
  - exact (proj1 (update_menu_checks_menu_first rid1 no_name (Some []))
             31170871365399813531073120024%N [] eq_refl eq_refl eq_refl).
  - exact (proj2 (update_menu_checks_menu_first rid1 no_name (Some [menu2])) eq_refl).
Defined.

(** ** Shapes of the responses *)

Lemma try_except_shaped msg db attempt :
  (forall r c, attempt = inr (r, c) -> shaped r) ->
  shaped (fst (try_except msg db attempt)).
Proof.
  intros H. unfold try_except. destruct attempt as [e|[r c]]; simpl.
  - apply shaped_fault.
  - now apply (H r c).
Qed.

Lemma serve_shaped req db : shaped (fst (serve req db)).
Proof.
  destruct req as [fresh rid data|rid|rid data|rid n|]; simpl.
  - unfold add_menu. destruct (missing_required data); simpl; [plain|].
    apply try_except_shaped. intros r c.
    destruct db as [c0|]; simpl; [|discriminate].
    destruct (ObjectId rid) as [e|o]; simpl; [discriminate|].
    destruct (find_one (by_restaurant o) c0); store_cases;
      try discriminate; intros [= <- _]; plain.
  - unfold get_menu. apply try_except_shaped. intros r c.
    destruct db as [c0|]; simpl; [|discriminate].
    destruct (ObjectId rid) as [e|o]; simpl; [discriminate|].
    destruct (find_one (by_restaurant o) c0); intros [= <- _]; [payload|plain].
  - unfold update_menu. apply try_except_shaped. intros r c.
    destruct db as [c0|]; simpl; [|discriminate].
    destruct (ObjectId rid) as [e|o]; simpl; [discriminate|].
    destruct (find_one (by_restaurant o) c0); [|intros [= <- _]; plain].
    destruct (truthy (get_product_name data)); simpl; [|intros [= <- _]; plain].
    destruct (next_named _ _); [|intros [= <- _]; plain].
    store_cases; [discriminate|].
    destruct (modified_count _ >? 0); intros [= <- _]; plain.
  - unfold delete_menu_item. apply try_except_shaped. intros r c.
    destruct db as [c0|]; simpl; [|discriminate].
    destruct (ObjectId rid) as [e|o]; simpl; [discriminate|].
    destruct (find_one (by_restaurant o) c0); [|intros [= <- _]; plain].
    destruct (next_named _ _); [|intros [= <- _]; plain].
    unfold update_one. simpl.
    destruct (list_find _ c0) as [[i0 d0]|]; simpl;
      [destruct (decide _); simpl|]; intros [= <- _]; plain.
  - unfold get_all_menus. apply try_except_shaped. intros r c.
    destruct db as [c0|]; simpl; [|discriminate].
    destruct (find everything c0); intros [= <- _]; [plain|payload].
Qed.

(** C3, as the claim has it, fails: the 404 answer of [get_menu] on a
    store without the menu carries no ["error"] member. *)
Lemma error_member_absent_on_not_found :
  ~ (forall req db,
       let r := fst (serve req db) in
       snd r = 400 \/ snd r = 404 \/ snd r = 500 -> has_string "error" (fst r)).
Proof.
  intros H. specialize (H (GET_menu rid1) (Some [])). simpl in H.
  destruct H as [s Hs]; [right; left; reflexivity | discriminate].
Qed.

(** C3, amended.  Of the answers to a request that has reached its
    handler (the body, where the handler reads one, is valid JSON and not
    an object whose [product_name] is neither a string nor [null]): the
    only one that is no JSON response is [add_menu]'s to a body that is no
    object, where [data.get] raises ahead of the [try] and the framework
    answers with its own page for status 500.  Every other answer is a
    JSON object with a string member ["msg"]; with status 500 it also has
    a string member ["error"], and with status 400 or 404 it has no
    ["error"] member. *)
Theorem every_response_has_msg (h : http_request) (db : database) :
  http_routed h = true ->
  match fst (full_dispatch_request h db) with
  | returned r =>
      (forall rid data, h <> POST_non_object rid data)
      /\ is_object (fst r)
      /\ has_string "msg" (fst r)
      /\ (snd r = 500 -> has_string "error" (fst r))
      /\ (snd r = 400 \/ snd r = 404 -> field "error" (fst r) = None)
  | internal_server_error e =>
      exists rid data, h = POST_non_object rid data /\ e = no_get data
  end.
Proof.
  intros _.
  assert (Hshape : forall r, shaped r ->
            is_object (fst r)
            /\ has_string "msg" (fst r)
            /\ (snd r = 500 -> has_string "error" (fst r))
            /\ (snd r = 400 \/ snd r = 404 -> field "error" (fst r) = None)).
  { intros r [m s Hs|m k v Hk1 Hk2|m e]; simpl; repeat split.
    - now eexists.
    - now exists m.
    - intros ->. contradiction.
    - now eexists.
    - now exists m.
    - discriminate.
    - intros [?|?]; discriminate.
    - now eexists.
    - now exists m.
    - intros _. now exists e.
    - intros [?|?]; discriminate. }
  destruct h as [req|rid data|rid data]; simpl.
  - split; [discriminate|]. apply Hshape, serve_shaped.
  - now exists rid, data.
  - split; [discriminate|]. apply Hshape.
    unfold update_menu_non_object. apply try_except_shaped. intros r c.
    destruct db as [c0|]; simpl; [|discriminate].
    destruct (ObjectId rid) as [e|o]; simpl; [discriminate|].
    destruct (find_one (by_restaurant o) c0); [discriminate|].
    intros [= <- _]. plain.
Qed.

Lemma every_response_has_msg_witness :
  (has_string "msg" (fst (get_menu "zz" (Some [])))
   /\ has_string "error" (fst (get_menu "zz" (Some []))))
  /\ (has_string "msg" (fst (get_menu rid1 (Some [])))
      /\ field "error" (fst (get_menu rid1 (Some []))) = None)
  /\ (exists e, fst (full_dispatch_request (POST_non_object rid1 (array [])) (Some []))
                = internal_server_error e
                /\ str_exn e = "'list' object has no attribute 'get'")
  /\ (has_string "msg"
        (fst (fst (update_menu_non_object rid1 null (Some [menu2]))))
      /\ field "error"
           (fst (fst (update_menu_non_object rid1 null (Some [menu2]))))
         = Some (JStr "'NoneType' object has no attribute 'get'")).
Proof.
  pose proof (every_response_has_msg (with_object (GET_menu "zz")) (Some []) eq_refl)
    as (_ & _ & H1 & H2 & _).
  pose proof (every_response_has_msg (with_object (GET_menu rid1)) (Some []) eq_refl)
    as (_ & _ & H3 & _ & H4).
  pose proof (every_response_has_msg (POST_non_object rid1 (array [])) (Some []) eq_refl)
    as (rid & data & H5 & H6).
  pose proof (every_response_has_msg (PUT_non_object rid1 null) (Some [menu2]) eq_refl)
    as (_ & _ & H7 & _).
  split; [split; [exact H1 | exact (H2 eq_refl)]|].
  split; [split; [exact H3 | exact (H4 (or_intror eq_refl))]|].
  split; [|split; [exact H7 | reflexivity]].
  exists (no_get (array [])). split; reflexivity.
Defined.

(** ** Frame properties *)

Lemma filter_insert_other {A} (P : A -> Prop) `{forall x, Decision (P x)}
    (l : list A) i x y :
  l !! i = Some x -> ~ P x -> ~ P y -> filter P (<[i := y]> l) = filter P l.
Proof.
  revert i. induction l as [|a l IH]; intros i Hi Hx Hy; [discriminate|].
  destruct i as [|i]; simpl in *.
  - injection Hi as ->. now rewrite !filter_cons_False.
  - rewrite !filter_cons. now rewrite (IH i Hi Hx Hy).
Qed.

Lemma apply_update_restaurant q u d :
  restaurant_id (apply_update q u d) = restaurant_id d.
Proof.
  destruct u as [it|f|n]; simpl; try reflexivity.
  destruct (q_item_name q) as [n|]; [|reflexivity].
  now destruct (list_find (has_name n) (menu_items d)) as [[j it]|].
Qed.

Lemma apply_update_id q u d : _id (apply_update q u d) = _id d.
Proof.
  destruct u as [it|f|n]; simpl; try reflexivity.
  destruct (q_item_name q) as [n|]; [|reflexivity].
  now destruct (list_find (has_name n) (menu_items d)) as [[j it]|].
Qed.

(** [update_one] with a filter on restaurant [o] leaves the documents of
    every other restaurant where and as they are. *)
Lemma update_one_other q u (c : list menu) o o' w :
  q_restaurant_id q = Some o -> o <> o' ->
  update_one q u c = inr w ->
  find (by_restaurant o') (snd w) = find (by_restaurant o') c.
Proof.
  intros Hq Hne. unfold update_one.
  destruct (update_error u); [discriminate|]. intros [= <-].
  destruct (list_find (matches q) c) as [[i d]|] eqn:Hd; [|reflexivity].
  simpl. apply list_find_Some in Hd as (Hi & Hm & _).
  assert (Hr : restaurant_id d = o).
  { destruct Hm as [Hm _]. now rewrite Hq in Hm. }
  unfold find. apply (filter_insert_other _ _ _ _ _ Hi).
  - rewrite matches_by_restaurant. congruence.
  - rewrite matches_by_restaurant, apply_update_restaurant. congruence.
Qed.

Lemma insert_one_other fresh o items (c c' : list menu) o' :
  o <> o' ->
  insert_one fresh o items c = inr c' ->
  find (by_restaurant o') c' = find (by_restaurant o') c.
Proof.
  intros Hne. unfold insert_one.
  destruct (items_error items); [discriminate|]. intros [= <-].
  unfold find. rewrite filter_app.
  rewrite filter_cons_False.
  - rewrite filter_nil. apply app_nil_r.
  - rewrite matches_by_restaurant. simpl. exact Hne.
Qed.



(** ** [update_menu] keeps the sequence of items *)

Lemma Forall2_diag {A} (R : A -> A -> Prop) (l : list A) :
  (forall x, R x x) -> Forall2 R l l.
Proof. intros HR. induction l; constructor; auto. Qed.

Lemma Forall2_insert_one {A} (R : A -> A -> Prop) (l : list A) i x y :
  (forall a, R a a) -> l !! i = Some x -> R x y -> Forall2 R l (<[i := y]> l).
Proof.
  intros HR Hi Hxy.
  rewrite <- (list_insert_id l i x Hi) at 1.
  apply Forall2_insert; [now apply Forall2_diag | exact Hxy].
Qed.

Lemma same_menu_but_refl data d : same_menu_but data d d.
Proof.
  unfold same_menu_but. repeat split.
  apply Forall2_diag. intros it. split; [reflexivity | now left].
Qed.

(** C9.  [update_menu] never changes how many items a menu has, their
    order or their names: after any request every document is in its
    place with its identifiers, and every item is in its place with its
    name, equal to what it was unless it bears the requested name. *)
Theorem update_menu_keeps_item_sequence
    (rid : string) (data : request_json) (c : list menu) :
  snd (update_menu rid data None) = None
  /\ exists c' : list menu,
       snd (update_menu rid data (Some c)) = Some c'
       /\ Forall2 (same_menu_but data) c c'
       /\ length c' = length c
       /\ map (fun d => map product_name (menu_items d)) c'
          = map (fun d => map product_name (menu_items d)) c.
Proof.
  split; [reflexivity|].
  assert (Hgoal : exists c', snd (update_menu rid data (Some c)) = Some c'
                    /\ Forall2 (same_menu_but data) c c').
  { assert (Hsame : Forall2 (same_menu_but data) c c)
      by (apply Forall2_diag; apply same_menu_but_refl).
    destruct (ObjectId rid) as [e|o] eqn:Ho.
    { exists c. split; [|exact Hsame]. unfold update_menu. simpl. now rewrite Ho. }
    destruct (find_one (by_restaurant o) c) as [d|] eqn:Hd.
    2:{ exists c. split; [|exact Hsame].
        now rewrite (update_menu_no_menu rid o c Ho data Hd). }
    destruct (truthy (get_product_name data)) eqn:Hn.
    2:{ exists c. split; [|exact Hsame].
        unfold update_menu. simpl. rewrite Ho. simpl. rewrite Hd, Hn. reflexivity. }
    destruct (list_find (has_name (the_product_name data)) (menu_items d))
      as [[j it]|] eqn:Hit.
    2:{ exists c. split; [|exact Hsame].
        unfold update_menu. simpl. rewrite Ho. simpl. rewrite Hd, Hn. simpl.
        unfold next_named. now rewrite Hit. }
    destruct (supplied_error data) as [e|] eqn:He.
    { exists c. split; [|exact Hsame].
      now rewrite (update_menu_not_encoded rid o c Ho data d it e Hd Hn
                     (proj2 (next_named_Some _ _ _) (ex_intro _ j Hit)) He). }
    apply find_one_Some in Hd as [i Hd].
    rewrite (update_menu_found rid o c Ho data i d j it Hd Hn Hit He).
    destruct (decide (item_after data it = it)); [now exists c|].
    eexists. split; [reflexivity|].
    apply list_find_Some in Hd as (Hi & _ & _).
    apply list_find_Some in Hit as (Hj & Hname & _).
    apply (Forall2_insert_one _ _ _ d); [apply same_menu_but_refl | exact Hi |].
    unfold same_menu_but. simpl. repeat split.
    apply (Forall2_insert_one _ _ _ it); [| exact Hj |].
    - intros a. split; [reflexivity | now left].
    - split; [reflexivity|]. right.
      unfold has_name, the_product_name in Hname.
      unfold get_product_name in Hn.
      destruct (data_product_name data) as [m|]; simpl in *; [congruence | discriminate]. }
  destruct Hgoal as (c' & Hc' & HF). exists c'.
  split; [exact Hc'|]. split; [exact HF|]. split.
  - symmetry. now apply Forall2_length in HF.
  - clear Hc'. induction HF as [|d d' l l' (_ & _ & Hitems) _ IH]; [reflexivity|].
    simpl. f_equal; [|exact IH].
    clear IH. induction Hitems as [|a a' m m' [Hname _] _ IH]; [reflexivity|].
    simpl. now f_equal.
Qed.

(** ** Identifiers and their strings *)

Lemma hex_digit_char (d : N) : (d < 16)%N -> hex_digit (hex_char d) = Some d.
Proof.
  intros Hd. destruct d as [|p]; [reflexivity|].
  do 4 (destruct p as [p|p|]; try reflexivity); lia.
Qed.

Lemma length_to_hex n v acc :
  String.length (to_hex n v acc) = (n + String.length acc)%nat.
Proof.
  revert v acc. induction n as [|n IH]; intros v acc; simpl; [reflexivity|].
  rewrite IH. simpl. lia.
Qed.

Lemma from_hex_to_hex n v acc a :
  from_hex a (to_hex n v acc)
  = from_hex (a * 16 ^ N.of_nat n + v mod 16 ^ N.of_nat n)%N acc.
Proof.
  revert v acc a. induction n as [|n IH]; intros v acc a.
  - simpl. rewrite N.mod_1_r. f_equal. lia.
  - cbn [to_hex]. rewrite IH. cbn [from_hex].
    rewrite hex_digit_char by (apply N.mod_lt; lia).
    f_equal. rewrite Nat2N.inj_succ, N.pow_succ_r'.
    rewrite (N.Div0.mod_mul_r v 16). lia.
Qed.

(** The string [get_all_menus] renders for an identifier is one
    [ObjectId] reads back as that identifier. *)
Lemma ObjectId_str_oid (o : oid) :
  (o < 2 ^ 96)%N -> ObjectId (str_oid o) = inr o.
Proof.
  intros Ho. unfold ObjectId, str_oid. rewrite length_to_hex. simpl Nat.eqb.
  cbv iota. rewrite from_hex_to_hex. cbn [from_hex].
  change (16 ^ N.of_nat 24)%N with (2 ^ 96)%N.
  rewrite N.mod_small by exact Ho. reflexivity.
Qed.

(** ** The scenario of the specification, run on the model *)

Example scenario :
  fst (add_menu 1%N rid1 burger db0) = only_msg Msg.created 201
  /\ fst (add_menu 2%N rid1 fries db1) = only_msg Msg.appended 200
  /\ get_menu rid1 db2 =
       (jsonify [("msg", JStr Msg.retrieved);
                 ("menu", JArr [item_json burger_item;
                                item_json (new_menu_item fries)])], 200)
  /\ db2 = Some [menu2]
  /\ update_menu rid1 burger_price_6 db2 =
       (only_msg Msg.updated 200,
        Some [with_items menu2
                [{| product_name := "Burger"; price := JInt 6; detail := JStr "Beef" |};
                 new_menu_item fries]])
  /\ delete_menu_item rid1 "Fries" db2 =
       (only_msg Msg.deleted 200, Some [with_items menu2 [burger_item]]).
Proof. repeat split. Qed.

(** An identifier is its twelve bytes: the upper-case spelling names the
    same restaurant; a product name is matched letter for letter. *)
Example spellings :
  ObjectId rid1_upper = ObjectId rid1
  /\ get_menu rid1_upper db2 = get_menu rid1 db2
  /\ fst (delete_menu_item rid1 "fries" db2) = only_msg Msg.product_not_found 404.
Proof. repeat split. Qed.

(** ** Every request, case by case *)

Lemma serve_outcome req (c : list menu) :
  exists r c', serve req (Some c) = (r, Some c') /\ outcome c req r c'.
Proof.
  destruct req as [fresh rid data|rid|rid data|rid n|]; simpl.
  - destruct (missing_required data) eqn:Hv.
    { exists (only_msg Msg.missing_fields 400), c. split.
      - unfold add_menu. now rewrite Hv.
      - apply outcome_kept. right. simpl. lia. }
    destruct (ObjectId rid) as [e|o] eqn:Ho.
    { exists (fault_response Msg.add_error e), c. split.
      - unfold add_menu. rewrite Hv. simpl. now rewrite Ho.
      - apply outcome_kept. right. simpl. lia. }
    destruct (item_error (new_menu_item data)) as [e|] eqn:He.
    { exists (fault_response Msg.add_error e), c. split.
      - now apply (add_menu_not_encoded rid o c Ho fresh data e).
      - apply outcome_kept. right. simpl. lia. }
    destruct (find_one (by_restaurant o) c) as [d|] eqn:Hd.
    + apply find_one_Some in Hd as [i Hd]. do 2 eexists. split.
      * now apply (add_menu_appended rid o c Ho fresh data i d).
      * now apply (outcome_appended c fresh rid data o i d).
    + do 2 eexists. split.
      * now apply (add_menu_created rid o c Ho fresh data).
      * now apply outcome_created.
  - exists (get_menu rid (Some c)), c. split; [reflexivity|].
    apply outcome_kept. unfold get_menu. simpl.
    destruct (ObjectId rid) as [e|o]; simpl; [right; lia|].
    destruct (find_one (by_restaurant o) c); simpl; [left; now split | right; lia].
  - destruct (ObjectId rid) as [e|o] eqn:Ho.
    { exists (fault_response Msg.update_error e), c. split.
      - unfold update_menu. simpl. now rewrite Ho.
      - apply outcome_kept. right. simpl. lia. }
    destruct (find_one (by_restaurant o) c) as [d|] eqn:Hd.
    2:{ do 2 eexists. split; [now apply (update_menu_no_menu rid o c Ho data)|].
        apply outcome_kept. right. simpl. lia. }
    destruct (truthy (get_product_name data)) eqn:Hn.
    2:{ exists (only_msg Msg.name_required 400), c. split.
        - unfold update_menu. simpl. rewrite Ho. simpl. now rewrite Hd, Hn.
        - apply outcome_kept. right. simpl. lia. }
    destruct (list_find (has_name (the_product_name data)) (menu_items d))
      as [[j it]|] eqn:Hit.
    2:{ exists (only_msg Msg.product_not_found 404), c. split.
        - unfold update_menu. simpl. rewrite Ho. simpl. rewrite Hd, Hn. simpl.
          unfold next_named. now rewrite Hit.
        - apply outcome_kept. right. simpl. lia. }
    destruct (supplied_error data) as [e|] eqn:He.
    { exists (fault_response Msg.update_error e), c. split.
      - now apply (update_menu_not_encoded rid o c Ho data d it e Hd Hn
                     (proj2 (next_named_Some _ _ _) (ex_intro _ j Hit)) He).
      - apply outcome_kept. right. simpl. lia. }
    apply find_one_Some in Hd as [i Hd].
    rewrite (update_menu_found rid o c Ho data i d j it Hd Hn Hit He).
    destruct (decide (item_after data it = it)) as [E|E].
    + do 2 eexists. split; [reflexivity|]. apply outcome_kept. right. simpl. lia.
    + do 2 eexists. split; [reflexivity|]. now apply (outcome_updated c rid data o i d j it).
  - destruct (ObjectId rid) as [e|o] eqn:Ho.
    { exists (fault_response Msg.delete_error e), c. split.
      - unfold delete_menu_item. simpl. now rewrite Ho.
      - apply outcome_kept. right. simpl. lia. }
    destruct (find_one (by_restaurant o) c) as [d|] eqn:Hd.
    2:{ do 2 eexists. split; [now apply (delete_menu_item_no_menu rid o c Ho n)|].
        apply outcome_kept. right. simpl. lia. }
    destruct (decide (Exists (has_name n) (menu_items d))) as [Hex|Hno].
    + apply find_one_Some in Hd as [i Hd]. do 2 eexists. split.
      * now apply (delete_menu_item_found rid o c Ho n i d).
      * now apply (outcome_deleted c rid n o i d).
    + do 2 eexists. split.
      * apply (delete_menu_item_no_item rid o c Ho n d Hd).
        apply Forall_forall. intros it Hin Hn. apply Hno.
        apply Exists_exists. now exists it.
      * apply outcome_kept. right. simpl. lia.
  - exists (get_all_menus (Some c)), c. split; [reflexivity|].
    apply outcome_kept. unfold get_all_menus. simpl.
    destruct (find everything c); simpl; [right; lia | left; now split].
Qed.

(** On an unbound collection every handler ends in its [except] branch,
    but for [add_menu] when the body fails its guard. *)
Lemma serve_unbound req :
  snd (serve req None) = None /\ 400 <= snd (fst (serve req None)).
Proof.
  destruct req as [fresh rid data|rid|rid data|rid n|]; simpl;
    try (split; [reflexivity | lia]).
  unfold add_menu. destruct (missing_required data); simpl; (split; [reflexivity | lia]).
Qed.

Lemma insert_changes {A} (l : list A) i x y :
  l !! i = Some x -> y <> x -> <[i := y]> l <> l.
Proof. intros Hi Hne E. apply Hne. now apply (insert_same l i x y Hi). Qed.

Lemma replaced_document_changes (c : list menu) i d items :
  c !! i = Some d -> items <> menu_items d -> <[i := with_items d items]> c <> c.
Proof.
  intros Hi Hne. apply (insert_changes c i d _ Hi).
  intros E. apply Hne. now apply with_items_same.
Qed.

(** A response below 400 to a mutating request comes with a changed
    collection, any other response with the collection as it was. *)
Lemma outcome_written (c : list menu) req r c' :
  outcome c req r c' ->
  (c' = c /\ ((is_mutation req = false /\ snd r = 200) \/ 400 <= snd r))
  \/ (c' <> c /\ is_mutation req = true /\ (snd r = 200 \/ snd r = 201)).
Proof.
  intros H. inversion H as
    [req0 r0 Hk|fresh rid data o Ho Hv Hf|fresh rid data o i d Ho Hv Hd
    |rid data o i d j it Ho Hd Hn Hit Henc Hne|rid n o i d Ho Hd Hex]; subst.
  - left. now split.
  - right. split; [|split; [reflexivity | now right]].
    intros E. apply (f_equal length) in E. rewrite length_app in E. simpl in E. lia.
  - right. split; [|split; [reflexivity | now left]].
    apply list_find_Some in Hd as (Hi & _ & _).
    apply (replaced_document_changes c i d _ Hi).
    intros E. apply (f_equal length) in E. rewrite length_app in E. simpl in E. lia.
  - right. split; [|split; [reflexivity | now left]].
    apply list_find_Some in Hd as (Hi & _ & _).
    apply list_find_Some in Hit as (Hj & _ & _).
    apply (replaced_document_changes c i d _ Hi).
    now apply (insert_changes _ j it).
  - right. split; [|split; [reflexivity | now left]].
    apply list_find_Some in Hd as (Hi & _ & _).
    apply (replaced_document_changes c i d _ Hi).
    intros E. apply filter_all_kept in E.
    apply Exists_exists in Hex as (x & Hx & Hn).
    rewrite Forall_forall in E. now apply (E x Hx).
Qed.

(** ** Further properties of the handlers *)

(** X1.  A POST, PUT or DELETE request leaves the store as it was exactly
    when its answer has status 400 or above; answered 200 or 201, it has
    changed the store. *)
Theorem store_changes_iff_success (req : request) (db : database) :
  is_mutation req = true ->
  (snd (serve req db) = db <-> 400 <= snd (fst (serve req db)))
  /\ (snd (serve req db) <> db <->
        snd (fst (serve req db)) = 200 \/ snd (fst (serve req db)) = 201).
Proof.
  intros Hm. destruct db as [c|].
  - destruct (serve_outcome req c) as (r & c' & E & Hout). rewrite E. simpl.
    apply outcome_written in Hout as [[-> [[Hf _]|Hs]]|(Hne & _ & Hs)].
    + congruence.
    + split; split; try tauto; try lia.
    + assert (Hc : Some c' <> Some c) by congruence.
      split; split; try tauto; try lia.
  - destruct (serve_unbound req) as [E Hs]. rewrite E.
    split; split; try tauto; try lia.
Qed.

Lemma store_changes_iff_success_witness :
  (snd (serve (DELETE_menu rid1 "Fries") (Some [menu2])) = Some [menu2] <->
     400 <= snd (fst (serve (DELETE_menu rid1 "Fries") (Some [menu2]))))
  /\ (snd (serve (DELETE_menu rid1 "Fries") (Some [menu2])) <> Some [menu2] <->
        snd (fst (serve (DELETE_menu rid1 "Fries") (Some [menu2]))) = 200
        \/ snd (fst (serve (DELETE_menu rid1 "Fries") (Some [menu2]))) = 201).
Proof.
  exact (store_changes_iff_success (DELETE_menu rid1 "Fries") (Some [menu2]) eq_refl).
Defined.

(** X2.  The status codes each handler can give: [add_menu] 200, 201, 400
    or 500; [get_menu] and [get_all_menus] 200, 404 or 500; [update_menu]
    200, 400, 404 or 500; [delete_menu_item] 200, 404 or 500 -- its 400
    branch ("No changes made to the menu") is never taken, because a
    [$pull] issued after the item was seen always removes something. *)
Theorem status_codes_of_handlers
    (fresh : oid) (rid n : string) (data : request_json) (db : database) :
  snd (fst (add_menu fresh rid data db)) ∈ [200; 201; 400; 500]
  /\ snd (get_menu rid db) ∈ [200; 404; 500]
  /\ snd (fst (update_menu rid data db)) ∈ [200; 400; 404; 500]
  /\ snd (fst (delete_menu_item rid n db)) ∈ [200; 404; 500]
  /\ snd (get_all_menus db) ∈ [200; 404; 500].
Proof.
  assert (Hget : snd (get_menu rid db) ∈ [200; 404; 500]).
  { unfold get_menu. destruct db as [c|]; simpl; [|among].
    destruct (ObjectId rid) as [e|o]; simpl; [among|].
    destruct (find_one (by_restaurant o) c); simpl; among. }
  assert (Hall : snd (get_all_menus db) ∈ [200; 404; 500]).
  { unfold get_all_menus. destruct db as [c|]; simpl; [|among].
    destruct (find everything c); simpl; among. }
  destruct db as [c|].
  2:{ split; [|split; [exact Hget|split; [|split; [|exact Hall]]]]; simpl; try among.
      unfold add_menu. destruct (missing_required data); simpl; among. }
  split; [|split; [exact Hget|split; [|split; [|exact Hall]]]].
  - unfold add_menu. destruct (missing_required data); simpl; [among|].
    destruct (ObjectId rid) as [e|o]; simpl; [among|].
    destruct (find_one (by_restaurant o) c); store_cases; among.
  - unfold update_menu. simpl.
    destruct (ObjectId rid) as [e|o]; simpl; [among|].
    destruct (find_one (by_restaurant o) c); [|simpl; among].
    destruct (truthy (get_product_name data)); simpl; [|among].
    destruct (next_named _ _); [|simpl; among].
    store_cases; [among|].
    destruct (modified_count _ >? 0); simpl; among.
  - destruct (ObjectId rid) as [e|o] eqn:Ho.
    { unfold delete_menu_item. simpl. rewrite Ho. simpl. among. }
    destruct (find_one (by_restaurant o) c) as [d|] eqn:Hd.
    2:{ rewrite (delete_menu_item_no_menu rid o c Ho n Hd). simpl. among. }
    destruct (decide (Exists (has_name n) (menu_items d))) as [Hex|Hno].
    + apply find_one_Some in Hd as [i Hd].
      rewrite (delete_menu_item_found rid o c Ho n i d Hd Hex). simpl. among.
    + rewrite (delete_menu_item_no_item rid o c Ho n d Hd); [simpl; among|].
      apply Forall_forall. intros it Hin Hn. apply Hno.
      apply Exists_exists. now exists it.
Qed.

Lemma from_hex_refuses (s : string) (acc : N) :
  existsb (fun ch => negb (is_Some_bool (hex_digit ch)) && negb (is_space ch))
    (list_ascii_of_string s) = true ->
  from_hex acc s = None.
Proof.
  revert acc. induction s as [|ch s IH]; intros acc; simpl; [discriminate|].
  destruct (hex_digit ch) as [d|]; simpl; [|reflexivity].
  intros H. now apply IH.
Qed.

Lemma surely_invalid_raises (rid : string) :
  surely_invalid rid = true -> ObjectId rid = inl (InvalidId rid).
Proof.
  unfold surely_invalid, ObjectId.
  destruct (Nat.eqb (String.length rid) 24); simpl; [|reflexivity].
  intros H. now rewrite (from_hex_refuses rid 0%N H).
Qed.

(** X3.  For a request that reaches its handler: when the collection
    handle is unbound, or the restaurant id of the path is sure to be
    refused by [ObjectId] (it is not 24 characters long, or holds a
    character that is neither a hexadecimal digit nor white space), the
    store is untouched and the handler answers 500 with
    its own message under ["msg"] and a string under ["error"] -- the text
    "name 'menus' is not defined" for the unbound handle -- except that
    [add_menu] checks the body first and answers 400 for a falsy field. *)
Theorem faults_are_reported (req : request) (db : database) :
  routed req = true ->
  db = None
  \/ (exists rid, request_id req = Some rid /\ surely_invalid rid = true) ->
  snd (serve req db) = db
  /\ (refused_before_try req = true ->
      fst (serve req db) = only_msg Msg.missing_fields 400)
  /\ (refused_before_try req = false ->
      snd (fst (serve req db)) = 500
      /\ field "msg" (fst (fst (serve req db))) = Some (JStr (error_msg req))
      /\ has_string "error" (fst (fst (serve req db)))
      /\ (db = None ->
          field "error" (fst (fst (serve req db)))
          = Some (JStr "name 'menus' is not defined"))).
Proof.
  intros _ H.
  assert (E : exists e, (db = None -> e = NameError "menus") /\
            serve req db =
              (if refused_before_try req then only_msg Msg.missing_fields 400
               else fault_response (error_msg req) e, db)).
  { destruct db as [c|].
    - destruct H as [H|(rid & Hreq & Hbad)]; [discriminate|].
      apply surely_invalid_raises in Hbad.
      exists (InvalidId rid). split; [discriminate|].
      destruct req as [fresh rid0 data|rid0|rid0 data|rid0 n|]; simpl in *;
        try discriminate; injection Hreq as ->.
      + unfold add_menu. destruct (missing_required data); [reflexivity|].
        simpl. now rewrite Hbad.
      + unfold get_menu. simpl. now rewrite Hbad.
      + unfold update_menu. simpl. now rewrite Hbad.
      + unfold delete_menu_item. simpl. now rewrite Hbad.
    - exists (NameError "menus"). split; [reflexivity|].
      destruct req as [fresh rid0 data|rid0|rid0 data|rid0 n|]; simpl; try reflexivity.
      unfold add_menu. now destruct (missing_required data). }
  destruct E as (e & He & E). rewrite E. simpl.
  split; [reflexivity|]. split.
  - intros ->. reflexivity.
  - intros ->. simpl. split; [reflexivity|]. split; [reflexivity|].
    split; [now eexists|]. intros Hdb. now rewrite (He Hdb).
Qed.

Lemma faults_are_reported_witness :
  snd (serve (PUT_menu "not-an-id" burger_price_6) (Some [menu2])) = Some [menu2]
  /\ snd (fst (serve (PUT_menu "not-an-id" burger_price_6) (Some [menu2]))) = 500
  /\ field "msg" (fst (fst (serve (PUT_menu "not-an-id" burger_price_6) (Some [menu2]))))
     = Some (JStr Msg.update_error)
  /\ has_string "error"
       (fst (fst (serve (PUT_menu "not-an-id" burger_price_6) (Some [menu2])))).
Proof.
  destruct (faults_are_reported (PUT_menu "not-an-id" burger_price_6) (Some [menu2]))
    as (H1 & _ & H2).
  - reflexivity.
  - right. exists "not-an-id". split; reflexivity.
  - destruct (H2 eq_refl) as (H3 & H4 & H5 & _).
    split; [exact H1|]. split; [exact H3|]. split; [exact H4 | exact H5].
Defined.

(** X5.  After a start-up whose ping raised [ConnectionFailure] the
    process serves on, but no sequence of requests ever binds the
    collection: every request of the sequence is answered with status 400
    or above, and the handle is unbound at the end. *)
Theorem failed_startup_never_recovers (stored : list menu) (reqs : list request) :
  run reqs (startup connection_failure stored) = None
  /\ Forall (fun r => 400 <= snd r) (responses reqs (startup connection_failure stored)).
Proof.
  simpl. induction reqs as [|req reqs [IHrun IHresp]]; [split; [reflexivity|constructor]|].
  destruct (serve_unbound req) as [E Hs]. split.
  - simpl. rewrite E. exact IHrun.
  - simpl. constructor; [exact Hs|]. rewrite E. exact IHresp.
Qed.

(** ** Invariants of the collection *)

Lemma fmap_insert_same {A B} (f : A -> B) (l : list A) i x y :
  l !! i = Some x -> f y = f x -> f <$> <[i := y]> l = f <$> l.
Proof.
  intros Hi Hf. rewrite list_fmap_insert, Hf. apply list_insert_id.
  now rewrite list_lookup_fmap, Hi.
Qed.

Lemma no_document_of o (c : list menu) :
  find_one (by_restaurant o) c = None -> o ∉ restaurant_id <$> c.
Proof.
  intros Hf Hin. apply find_one_None in Hf.
  apply list_find_None in Hf. rewrite Forall_forall in Hf.
  apply list_elem_of_fmap in Hin as (d & -> & Hd).
  apply (Hf d Hd). now apply matches_by_restaurant.
Qed.

Lemma truthy_name data :
  truthy (get_product_name data) = true -> the_product_name data <> "".
Proof.
  unfold get_product_name, the_product_name.
  destruct (data_product_name data) as [s|]; simpl; [|discriminate].
  intros H ->. discriminate.
Qed.

Lemma missing_required_false data :
  missing_required data = false ->
  truthy (get_product_name data) = true /\ truthy (get_price data) = true
  /\ truthy (get_detail data) = true.
Proof.
  unfold missing_required.
  destruct (truthy (get_product_name data)), (truthy (get_price data)),
    (truthy (get_detail data)); simpl; intros; try discriminate; now repeat split.
Qed.

Lemma outcome_unique (c : list menu) req r c' :
  outcome c req r c' -> unique_restaurants c -> unique_restaurants c'.
Proof.
  unfold unique_restaurants. intros H Hu. inversion H as
    [req0 r0 Hk|fresh rid data o Ho Hv Hf|fresh rid data o i d Ho Hv Hd
    |rid data o i d j it Ho Hd Hn Hit Henc Hne|rid n o i d Ho Hd Hex]; subst;
    try exact Hu.
  - change (NoDup (restaurant_id <$> (c ++
      [{| _id := fresh; restaurant_id := o; menu_items := [new_menu_item data] |}]))).
    rewrite fmap_app. apply NoDup_app. split; [exact Hu|]. split.
    + intros x Hx Hx'. simpl in Hx'. apply list_elem_of_singleton in Hx'. subst x.
      now apply (no_document_of o c).
    + apply NoDup_singleton.
  - apply list_find_Some in Hd as (Hi & _ & _).
    change (NoDup (restaurant_id <$> <[i := with_items d (menu_items d ++ [new_menu_item data])]> c)).
    now rewrite (fmap_insert_same _ _ _ d _ Hi).
  - apply list_find_Some in Hd as (Hi & _ & _).
    change (NoDup (restaurant_id <$> <[i := with_items d (<[j := item_after data it]> (menu_items d))]> c)).
    now rewrite (fmap_insert_same _ _ _ d _ Hi).
  - apply list_find_Some in Hd as (Hi & _ & _).
    change (NoDup (restaurant_id <$> <[i := with_items d (filter (fun it => ~ has_name n it) (menu_items d))]> c)).
    now rewrite (fmap_insert_same _ _ _ d _ Hi).
Qed.

Lemma outcome_names (c : list menu) req r c' :
  outcome c req r c' -> names_nonempty c -> names_nonempty c'.
Proof.
  unfold names_nonempty. intros H Hall. inversion H as
    [req0 r0 Hk|fresh rid data o Ho Hv Hf|fresh rid data o i d Ho Hv Hd
    |rid data o i d j it Ho Hd Hn Hit Henc Hne|rid n o i d Ho Hd Hex]; subst;
    try exact Hall.
  - apply Forall_app. split; [exact Hall|].
    repeat constructor. simpl.
    apply truthy_name. now apply missing_required_false in Hv as [? _].
  - apply list_find_Some in Hd as (Hi & _ & _).
    apply Forall_insert; [exact Hall|]. simpl.
    apply Forall_app. split.
    + rewrite Forall_lookup in Hall. exact (Hall i d Hi).
    + repeat constructor. simpl.
      apply truthy_name. now apply missing_required_false in Hv as [? _].
  - apply list_find_Some in Hd as (Hi & _ & _).
    apply list_find_Some in Hit as (Hj & _ & _).
    rewrite Forall_lookup in Hall. pose proof (Hall i d Hi) as Hd.
    rewrite <- Forall_lookup in Hall.
    apply Forall_insert; [exact Hall|]. simpl.
    apply Forall_insert; [exact Hd|]. simpl.
    rewrite Forall_lookup in Hd. exact (Hd j it Hj).
  - apply list_find_Some in Hd as (Hi & _ & _).
    rewrite Forall_lookup in Hall. pose proof (Hall i d Hi) as Hd.
    rewrite <- Forall_lookup in Hall.
    apply Forall_insert; [exact Hall|]. simpl.
    apply Forall_forall. intros it Hin.
    apply list_elem_of_filter in Hin as [_ Hin].
    rewrite Forall_forall in Hd. now apply Hd.
Qed.

(** X6.  At most one document per restaurant: a collection that has the
    property keeps it through every sequence of requests, and the empty
    collection has it. *)
Theorem one_document_per_restaurant (reqs : list request) (c : list menu) :
  unique_restaurants c ->
  exists c', run reqs (Some c) = Some c' /\ unique_restaurants c'.
Proof.
  revert c. induction reqs as [|req reqs IH]; intros c Hu.
  - now exists c.
  - destruct (serve_outcome req c) as (r & c1 & E & Hout).
    simpl. rewrite E. simpl. apply IH. now apply (outcome_unique c req r c1).
Qed.

Lemma one_document_per_restaurant_witness :
  exists c',
    run [POST_menu 1%N rid1 burger; POST_menu 2%N rid1_upper fries;
         DELETE_menu rid1 "Burger"] (Some []) = Some c'
    /\ unique_restaurants c'.
Proof.
  apply (one_document_per_restaurant
           [POST_menu 1%N rid1 burger; POST_menu 2%N rid1_upper fries;
            DELETE_menu rid1 "Burger"] []).
  apply NoDup_nil_2.
Defined.

(** X7.  No stored item has the empty name: a collection that has the
    property keeps it through every sequence of requests, since [add_menu]
    refuses an empty [product_name] and [update_menu] never writes the
    name. *)
Theorem item_names_stay_nonempty (reqs : list request) (c : list menu) :
  names_nonempty c ->
  exists c', run reqs (Some c) = Some c' /\ names_nonempty c'.
Proof.
  revert c. induction reqs as [|req reqs IH]; intros c Hn.
  - now exists c.
  - destruct (serve_outcome req c) as (r & c1 & E & Hout).
    simpl. rewrite E. simpl. apply IH. now apply (outcome_names c req r c1).
Qed.

Lemma item_names_stay_nonempty_witness :
  exists c',
    run [POST_menu 1%N rid1 burger; PUT_menu rid1 burger_price_6;
         POST_menu 2%N rid1 no_name] (Some []) = Some c'
    /\ names_nonempty c'.
Proof.
  apply (item_names_stay_nonempty
           [POST_menu 1%N rid1 burger; PUT_menu rid1 burger_price_6;
            POST_menu 2%N rid1 no_name] []).
  apply Forall_nil_2.
Defined.

(** X8.  No handler removes a document or touches the identifiers of one:
    after any request the documents' [_id] and [restaurant_id] are, in
    order, those of before, followed by one new pair exactly when the
    answer is 201. *)
Theorem documents_are_never_removed (req : request) (c : list menu) :
  exists c',
    snd (serve req (Some c)) = Some c'
    /\ (snd (fst (serve req (Some c))) <> 201 ->
        (fun d => (_id d, restaurant_id d)) <$> c'
        = (fun d => (_id d, restaurant_id d)) <$> c)
    /\ (snd (fst (serve req (Some c))) = 201 ->
        exists d, c' = c ++ [d] /\ length (menu_items d) = 1%nat).
Proof.
  destruct (serve_outcome req c) as (r & c' & E & Hout). exists c'.
  rewrite E. simpl. split; [reflexivity|].
  inversion Hout as
    [req0 r0 Hk|fresh rid data o Ho Hv Hf|fresh rid data o i d Ho Hv Hd
    |rid data o i d j it Ho Hd Hn Hit Henc Hne|rid n o i d Ho Hd Hex]; subst; simpl.
  - split; [reflexivity|]. intros H201. destruct Hk as [[_ Hk]|Hk]; lia.
  - split; [intros H; contradiction|]. intros _.
    eexists. split; reflexivity.
  - apply list_find_Some in Hd as (Hi & _ & _).
    split; [|discriminate]. intros _. now apply (fmap_insert_same _ _ _ d).
  - apply list_find_Some in Hd as (Hi & _ & _).
    split; [|discriminate]. intros _. now apply (fmap_insert_same _ _ _ d).
  - apply list_find_Some in Hd as (Hi & _ & _).
    split; [|discriminate]. intros _. now apply (fmap_insert_same _ _ _ d).
Qed.

Lemma list_find_insert_first {A} (P : A -> Prop) `{forall x, Decision (P x)}
    (l : list A) i x y :
  list_find P l = Some (i, x) -> P y -> list_find P (<[i := y]> l) = Some (i, y).
Proof.
  intros Hx Hy. apply list_find_Some in Hx as (Hi & _ & Hfirst).
  apply list_find_Some. split; [|split].
  - apply list_lookup_insert_eq. eapply lookup_lt_Some; eauto.
  - exact Hy.
  - intros k z Hk Hlt. rewrite list_lookup_insert_ne in Hk by lia.
    now apply Hfirst with k.
Qed.

Lemma item_after_twice data it :
  item_after data (item_after data it) = item_after data it.
Proof.
  unfold item_after. simpl.
  destruct (data_price data), (data_detail data); reflexivity.
Qed.

(** X9.  Repeating an [update_menu] request changes nothing more: the
    second answer is never 200, the store after it is the store after the
    first, and when the first answer was 200 the second is the 400 "No
    changes made to the product". *)
Theorem update_menu_twice (rid : string) (data : request_json) (db : database) :
  let first := update_menu rid data db in
  let second := update_menu rid data (snd first) in
  snd second = snd first
  /\ fst second <> only_msg Msg.updated 200
  /\ (fst first = only_msg Msg.updated 200 ->
      fst second = only_msg Msg.no_product_change 400).
Proof.
  intros first second. unfold second, first. clear first second.
  destruct db as [c|]; [|simpl; repeat split; discriminate].
  destruct (serve_outcome (PUT_menu rid data) c) as (r & c' & E & Hout).
  simpl in E. rewrite E. simpl.
  inversion Hout as
    [req0 r0 Hk| | |rid0 data0 o i d j it Ho Hd Hn Hit Henc Hne| ]; subst.
  - rewrite E. simpl. destruct Hk as [[Hk _]|Hk]; [discriminate|].
    assert (Hr : r <> only_msg Msg.updated 200) by (intros ->; simpl in Hk; lia).
    repeat split; [exact Hr | intros; contradiction].
  - assert (Hd' : list_find (matches (by_restaurant o))
                    (<[i := with_items d (<[j := item_after data it]> (menu_items d))]> c)
                  = Some (i, with_items d (<[j := item_after data it]> (menu_items d)))).
    { apply (list_find_insert_first _ _ _ d); [exact Hd|].
      apply matches_by_restaurant. simpl. now apply list_find_restaurant in Hd. }
    assert (Hit' : list_find (has_name (the_product_name data))
                     (menu_items (with_items d (<[j := item_after data it]> (menu_items d))))
                   = Some (j, item_after data it)).
    { simpl. apply (list_find_insert_first _ _ _ it); [exact Hit|].
      apply list_find_Some in Hit as (_ & Hname & _). exact Hname. }
    rewrite (update_menu_found rid o _ Ho data i _ j _ Hd' Hn Hit' Henc).
    rewrite decide_True by apply item_after_twice. simpl.
    repeat split; discriminate.
Qed.

(** X10.  A second [delete_menu_item] for a name just deleted finds
    nothing: after an answer of 200, the same request is answered 404
    "Product not found in the menu" and leaves the store as it is. *)
Theorem delete_menu_item_twice (rid n : string) (db : database) :
  fst (delete_menu_item rid n db) = only_msg Msg.deleted 200 ->
  delete_menu_item rid n (snd (delete_menu_item rid n db))
  = (only_msg Msg.product_not_found 404, snd (delete_menu_item rid n db)).
Proof.
  destruct db as [c|]; [|discriminate].
  destruct (serve_outcome (DELETE_menu rid n) c) as (r & c' & E & Hout).
  simpl in E. rewrite E. simpl. intros ->.
  inversion Hout as [req0 r0 Hk| | | |rid0 n0 o i d Ho Hd Hex]; subst.
  - simpl in Hk. destruct Hk as [[Hk _]|Hk]; [discriminate | lia].
  - apply (delete_menu_item_no_item rid o _ Ho n
             (with_items d (filter (fun it => ~ has_name n it) (menu_items d)))).
    + apply (find_one_insert o c i d _ Hd). simpl. now apply list_find_restaurant in Hd.
    + simpl. apply Forall_forall. intros it Hin.
      now apply list_elem_of_filter in Hin as [Hne _].
Qed.

Lemma delete_menu_item_twice_witness :
  delete_menu_item rid1 "Fries" (snd (delete_menu_item rid1 "Fries" (Some [menu2])))
  = (only_msg Msg.product_not_found 404,
     snd (delete_menu_item rid1 "Fries" (Some [menu2]))).
Proof. exact (delete_menu_item_twice rid1 "Fries" (Some [menu2]) eq_refl). Defined.

Lemma filter_none_kept {A} (P : A -> Prop) `{forall x, Decision (P x)} (l : list A) :
  Forall (fun x => ~ P x) l -> filter P l = [].
Proof.
  induction 1 as [|x l Hx _ IH]; [reflexivity|].
  now rewrite filter_cons_False.
Qed.

Lemma filter_all {A} (P : A -> Prop) `{forall x, Decision (P x)} (l : list A) :
  Forall P l -> filter P l = l.
Proof.
  induction 1 as [|x l Hx _ IH]; [reflexivity|].
  rewrite filter_cons_True by exact Hx. now rewrite IH.
Qed.

(** X11.  A menu outlives its items: when every item of a non-empty menu
    bears the deleted name, [delete_menu_item] answers 200 and leaves the
    document with no items; [get_menu] then answers 200 with an empty list
    (not 404), and a later [add_menu] that passes the guard is never
    answered 201: it is answered 200 "appended", unless the store call
    raises and it is answered 500. *)
Theorem emptied_menu_still_exists
    (rid n : string) (o : oid) (c : list menu) (d : menu)
    (fresh : oid) (data : request_json) :
  ObjectId rid = inr o ->
  find_one (by_restaurant o) c = Some d ->
  menu_items d <> [] ->
  Forall (has_name n) (menu_items d) ->
  missing_required data = false ->
  let after := snd (delete_menu_item rid n (Some c)) in
  fst (delete_menu_item rid n (Some c)) = only_msg Msg.deleted 200
  /\ get_menu rid after =
       (jsonify [("msg", JStr Msg.retrieved); ("menu", JArr [])], 200)
  /\ snd (fst (add_menu fresh rid data after)) <> 201
  /\ (snd (fst (add_menu fresh rid data after)) <> 500 ->
      fst (add_menu fresh rid data after) = only_msg Msg.appended 200).
Proof.
  intros Ho Hd Hne Hall Hv after. unfold after. clear after.
  apply find_one_Some in Hd as [i Hd].
  assert (Hex : Exists (has_name n) (menu_items d)).
  { destruct (menu_items d) as [|it items]; [contradiction|].
    apply Forall_cons in Hall as [Hit _]. now left. }
  rewrite (delete_menu_item_found rid o c Ho n i d Hd Hex). simpl.
  rewrite filter_none_kept by (eapply Forall_impl; [exact Hall | tauto]).
  assert (Hd' : list_find (matches (by_restaurant o)) (<[i := with_items d []]> c)
                = Some (i, with_items d [])).
  { apply (list_find_insert_first _ _ _ d); [exact Hd|].
    apply matches_by_restaurant. simpl. now apply list_find_restaurant in Hd. }
  split; [reflexivity|]. split.
  - apply (get_menu_found rid o _ Ho (with_items d [])).
    unfold find_one. now rewrite Hd'.
  - destruct (item_error (new_menu_item data)) as [e|] eqn:He.
    + rewrite (add_menu_not_encoded rid o _ Ho fresh data e Hv He). simpl.
      split; [discriminate|]. intros Hx. now contradiction Hx.
    + rewrite (add_menu_appended rid o _ Ho fresh data i _ Hv He Hd'). simpl.
      split; [discriminate | reflexivity].
Qed.

Lemma emptied_menu_still_exists_witness :
  let after := snd (delete_menu_item rid1 "Burger" (Some [burger_only])) in
  fst (delete_menu_item rid1 "Burger" (Some [burger_only])) = only_msg Msg.deleted 200
  /\ get_menu rid1 after =
       (jsonify [("msg", JStr Msg.retrieved); ("menu", JArr [])], 200)
  /\ snd (fst (add_menu 2%N rid1 fries after)) <> 201
  /\ fst (add_menu 2%N rid1 fries after) = only_msg Msg.appended 200.
Proof.
  destruct (emptied_menu_still_exists rid1 "Burger" 31170871365399813531073120024%N
              [burger_only] burger_only 2%N fries)
    as (H1 & H2 & H3 & H4);
    try reflexivity; [discriminate | repeat constructor |].
  split; [exact H1|]. split; [exact H2|]. split; [exact H3|].
  apply H4. discriminate.
Defined.

Lemma from_hex_digits (s : string) (acc v : N) :
  from_hex acc s = Some v ->
  existsb (fun ch => negb (is_Some_bool (hex_digit ch))) (list_ascii_of_string s) = false.
Proof.
  revert acc. induction s as [|ch s IH]; intros acc; simpl; [reflexivity|].
  destruct (hex_digit ch) as [d|]; simpl; [|discriminate].
  apply IH.
Qed.

(** An id [ObjectId] accepts is one the route lets through. *)
Lemma accepted_id_is_segment (rid : string) (o : oid) :
  ObjectId rid = inr o -> is_segment rid = true.
Proof.
  unfold ObjectId, is_segment.
  destruct (Nat.eqb (String.length rid) 24) eqn:L; [|discriminate].
  destruct (from_hex 0 rid) as [v|] eqn:E; [|discriminate]. intros _.
  apply andb_true_iff. split.
  - destruct rid; [discriminate | reflexivity].
  - apply negb_true_iff. unfold contains.
    apply from_hex_digits in E.
    apply not_true_iff_false. intros H. apply not_true_iff_false in E. apply E.
    apply existsb_exists in H as (ch & Hin & Hch).
    apply existsb_exists. exists ch. split; [exact Hin|].
    apply Ascii.eqb_eq in Hch. subst ch. reflexivity.
Qed.

(** X12.  On an existing menu, an [add_menu] under a name the menu does
    not have that is not answered 500, followed by the DELETE request for
    that name -- a name the route can carry: not empty, without a slash --
    is answered 200 and gives back the store exactly as it was before the
    two requests. *)
Theorem add_then_delete_restores
    (fresh : oid) (rid : string) (o : oid) (data : request_json)
    (c : list menu) (d : menu) :
  ObjectId rid = inr o ->
  find_one (by_restaurant o) c = Some d ->
  missing_required data = false ->
  Forall (fun it => product_name it <> the_product_name data) (menu_items d) ->
  is_segment (the_product_name data) = true ->
  snd (fst (serve (POST_menu fresh rid data) (Some c))) <> 500 ->
  routed (DELETE_menu rid (the_product_name data)) = true
  /\ serve (DELETE_menu rid (the_product_name data))
       (snd (serve (POST_menu fresh rid data) (Some c)))
     = (only_msg Msg.deleted 200, Some c).
Proof.
  intros Ho Hd Hv Hnew Hseg H500. simpl in *.
  split.
  { rewrite Hseg. now rewrite (accepted_id_is_segment rid o Ho). }
  assert (He : item_error (new_menu_item data) = None).
  { destruct (item_error (new_menu_item data)) as [e|] eqn:He; [|reflexivity].
    exfalso. apply H500.
    now rewrite (add_menu_not_encoded rid o c Ho fresh data e Hv He). }
  apply find_one_Some in Hd as [i Hd].
  rewrite (add_menu_appended rid o c Ho fresh data i d Hv He Hd). simpl.
  set (d1 := with_items d (menu_items d ++ [new_menu_item data])).
  assert (Hd1 : list_find (matches (by_restaurant o)) (<[i := d1]> c) = Some (i, d1)).
  { apply (list_find_insert_first _ _ _ d); [exact Hd|].
    apply matches_by_restaurant. simpl. now apply list_find_restaurant in Hd. }
  assert (Hex : Exists (has_name (the_product_name data)) (menu_items d1)).
  { simpl. apply Exists_app. right. now left. }
  rewrite (delete_menu_item_found rid o _ Ho _ i d1 Hd1 Hex).
  do 2 f_equal. rewrite list_insert_insert_eq.
  apply list_find_Some in Hd as (Hi & _ & _).
  apply list_insert_id. rewrite Hi. f_equal.
  unfold d1. simpl. rewrite filter_app, filter_all by exact Hnew.
  rewrite filter_cons_False by (simpl; unfold has_name; simpl; tauto).
  rewrite filter_nil, app_nil_r. now destruct d.
Qed.

Lemma add_then_delete_restores_witness :
  routed (DELETE_menu rid1 (the_product_name fries)) = true
  /\ serve (DELETE_menu rid1 (the_product_name fries))
       (snd (serve (POST_menu 9%N rid1 fries) (Some [burger_only])))
     = (only_msg Msg.deleted 200, Some [burger_only]).
Proof.
  apply (add_then_delete_restores 9%N rid1 31170871365399813531073120024%N
           fries [burger_only] burger_only); try reflexivity.
  - repeat constructor. discriminate.
  - discriminate.
Defined.

(** X13.  [add_menu] never looks at the names already on a menu: on an
    existing menu a request that passes the guard is answered 200 or, when
    the store call raises, 500 with the store as it was -- never refused
    for its name.  Answered 200, its item stands after the items there
    were, also when the name is already taken, so the number of items
    bearing that name has grown by one. *)
Theorem add_menu_accepts_taken_names
    (fresh : oid) (rid : string) (o : oid) (data : request_json)
    (c : list menu) (d : menu) :
  ObjectId rid = inr o ->
  find_one (by_restaurant o) c = Some d ->
  missing_required data = false ->
  (fst (add_menu fresh rid data (Some c)) = only_msg Msg.appended 200
   \/ (snd (fst (add_menu fresh rid data (Some c))) = 500
       /\ snd (add_menu fresh rid data (Some c)) = Some c))
  /\ (snd (fst (add_menu fresh rid data (Some c))) <> 500 ->
      exists (c' : list menu) (d' : menu),
        add_menu fresh rid data (Some c) = (only_msg Msg.appended 200, Some c')
        /\ find_one (by_restaurant o) c' = Some d'
        /\ menu_items d' = menu_items d ++ [new_menu_item data]
        /\ length (filter (has_name (the_product_name data)) (menu_items d'))
           = S (length (filter (has_name (the_product_name data)) (menu_items d)))).
Proof.
  intros Ho Hd Hv. apply find_one_Some in Hd as [i Hd].
  destruct (item_error (new_menu_item data)) as [e|] eqn:He.
  { rewrite (add_menu_not_encoded rid o c Ho fresh data e Hv He). simpl.
    split; [right; now split|]. intros Hx. now contradiction Hx. }
  rewrite (add_menu_appended rid o c Ho fresh data i d Hv He Hd).
  split; [now left|]. intros _.
  exists (<[i := with_items d (menu_items d ++ [new_menu_item data])]> c),
         (with_items d (menu_items d ++ [new_menu_item data])).
  split; [reflexivity|]. split; [|split].
  - apply (find_one_insert o c i d _ Hd). simpl. now apply list_find_restaurant in Hd.
  - reflexivity.
  - simpl. rewrite filter_app, length_app.
    rewrite filter_cons_True by reflexivity. simpl. lia.
Qed.

Lemma add_menu_accepts_taken_names_witness :
  exists (c' : list menu) (d' : menu),
    add_menu 9%N rid1 fries_price_4 (Some [menu2]) = (only_msg Msg.appended 200, Some c')
    /\ find_one (by_restaurant 31170871365399813531073120024%N) c' = Some d'
    /\ menu_items d' = menu_items menu2 ++ [new_menu_item fries_price_4]
    /\ length (filter (has_name (the_product_name fries_price_4)) (menu_items d'))
       = S (length (filter (has_name (the_product_name fries_price_4)) (menu_items menu2))).
Proof.
  apply (add_menu_accepts_taken_names 9%N rid1 31170871365399813531073120024%N
           fries_price_4 [menu2] menu2); try reflexivity.
  discriminate.
Defined.

Lemma find_one_unique (c : list menu) k d :
  unique_restaurants c -> c !! k = Some d ->
  find_one (by_restaurant (restaurant_id d)) c = Some d.
Proof.
  intros Hu Hk.
  destruct (list_find (matches (by_restaurant (restaurant_id d))) c)
    as [[i d']|] eqn:Hf.
  - unfold find_one. rewrite Hf. simpl. f_equal.
    apply list_find_Some in Hf as (Hi & Hm & _).
    apply matches_by_restaurant in Hm.
    assert (i = k).
    { apply (NoDup_lookup _ i k (restaurant_id d) Hu).
      - now rewrite list_lookup_fmap, Hi; simpl; rewrite Hm.
      - now rewrite list_lookup_fmap, Hk. }
    subst i. congruence.
  - apply list_find_None in Hf. rewrite Forall_lookup in Hf.
    exfalso. apply (Hf k d Hk). now apply matches_by_restaurant.
Qed.



Lemma truthy_false_iff v : truthy v = false <-> falsy v.
Proof.
  unfold falsy. split.
  - destruct v as [|b|z|f|s|l|l]; simpl.
    + now left.
    + destruct b; [discriminate|]. right. now left.
    + destruct (Z.eqb_spec z 0) as [->|Hz]; [|discriminate].
      intros _. do 2 right. now left.
    + destruct f; try discriminate. intros _. do 3 right. left. now eexists.
    + destruct s; [|discriminate]. intros _. do 4 right. now left.
    + destruct l; [|discriminate]. intros _. do 5 right. now left.
    + destruct l; [|discriminate]. intros _. do 6 right. reflexivity.
  - intros [->|[->|[->|[[s ->]|[->|[->| ->]]]]]]; reflexivity.
Qed.

(** X15.  For a body that is a JSON object whose [product_name] is a
    string, [null] or absent, the guard of [add_menu] refuses by truth
    value: the answer is 400 exactly when [product_name] is absent or
    empty, or [price] or [detail] is absent, [null], [false], [0], [0.0],
    or an empty string, list or object; a request that is refused stores
    nothing. *)
Theorem add_menu_guard_is_truthiness
    (fresh : oid) (rid : string) (data : request_json) (db : database) :
  (snd (fst (add_menu fresh rid data db)) = 400 <->
     (data_product_name data = None \/ data_product_name data = Some "")
     \/ (data_price data = None \/ exists v, data_price data = Some v /\ falsy v)
     \/ (data_detail data = None \/ exists v, data_detail data = Some v /\ falsy v))
  /\ (snd (fst (add_menu fresh rid data db)) = 400 ->
      add_menu fresh rid data db = (only_msg Msg.missing_fields 400, db)).
Proof.
  destruct (add_menu_refuses_iff fresh rid data db) as [Hrefuse Hiff].
  split; [|intros H; now apply Hrefuse, Hiff].
  rewrite Hiff. unfold missing_required, get_product_name, get_price, get_detail.
  rewrite !orb_true_iff, !negb_true_iff, !truthy_false_iff.
  assert (Hname : falsy (from_option JStr JNull (data_product_name data)) <->
                  data_product_name data = None \/ data_product_name data = Some "").
  { destruct (data_product_name data) as [s|]; simpl; unfold falsy.
    - split.
      + intros [?|[?|[?|[[? ?]|[E|[?|?]]]]]]; try discriminate. right. congruence.
      + intros [?|E]; [discriminate|]. do 4 right. left. congruence.
    - split; [now left | now left]. }
  assert (Hval : forall o : option json,
             falsy (default JNull o) <-> o = None \/ exists v, o = Some v /\ falsy v).
  { intros [v|]; simpl.
    - split; [intros H; right; now exists v|].
      intros [?|(v' & [= <-] & H)]; [discriminate | exact H].
    - split; [now left | intros _; now left]. }
  rewrite Hname, !Hval. tauto.
Qed.

(** X16.  [update_menu] for a name that no item of the menu bears answers
    404 "Product not found in the menu" and leaves the store as it is,
    whatever fields the request supplies. *)
Theorem update_menu_unknown_name
    (rid : string) (o : oid) (data : request_json) (c : list menu) (d : menu) :
  ObjectId rid = inr o ->
  find_one (by_restaurant o) c = Some d ->
  truthy (get_product_name data) = true ->
  Forall (fun it => product_name it <> the_product_name data) (menu_items d) ->
  update_menu rid data (Some c) = (only_msg Msg.product_not_found 404, Some c).
Proof.
  intros Ho Hd Hn Hall. unfold update_menu. simpl. rewrite Ho. simpl.
  rewrite Hd, Hn. simpl. apply next_named_None in Hall. now rewrite Hall.
Qed.

Lemma update_menu_unknown_name_witness :
  update_menu rid1 fries_price_4 (Some [burger_only])
  = (only_msg Msg.product_not_found 404, Some [burger_only]).
Proof.
  apply (update_menu_unknown_name rid1 31170871365399813531073120024%N
           fries_price_4 [burger_only] burger_only); try reflexivity.
  repeat constructor. discriminate.
Defined.


